(** * joycontrol: the socket command interface

    A shallow embedding of [joycontrol/socket_interface.py] and of the
    command handlers of [run_controller_socket.py], with the properties of
    the line dispatcher, the command registry, the stick command and the
    nfc command.

    Python coroutines are run to completion one after the other: an [await]
    is a sequential call, and a task passed to [asyncio.ensure_future] is
    recorded in the list of scheduled tasks instead of being run. *)

From Stdlib Require Import ZArith Ascii String DecimalString.
From Stdlib.Strings Require Import Byte.
From stdpp Require Import base option list gmap strings.

Local Open Scope Z_scope.
Local Open Scope string_scope.
Local Open Scope list_scope.

(** ** Python strings *)

Module PyStr.

(** [s.startswith(p)] *)
Definition startswith (p s : string) : bool := String.prefix p s.

(** [s.split(sep)] for a one-character separator: every occurrence of the
    separator cuts, so the result has one more field than [s] has
    separators. *)
Fixpoint split (sep : ascii) (s : string) : list string :=
  match s with
  | EmptyString => [EmptyString]
  | String c rest =>
      if Ascii.eqb c sep then EmptyString :: split sep rest
      else match split sep rest with
           | [] => [String c EmptyString]
           | w :: ws => String c w :: ws
           end
  end.

(** [s.split(sep, maxsplit)]: at most [maxsplit] cuts, from the left. *)
Fixpoint split_max (sep : ascii) (maxsplit : nat) (s : string) : list string :=
  match maxsplit with
  | O => [s]
  | S n =>
      match s with
      | EmptyString => [EmptyString]
      | String c rest =>
          if Ascii.eqb c sep then EmptyString :: split_max sep n rest
          else match split_max sep (S n) rest with
               | [] => [String c EmptyString]
               | w :: ws => String c w :: ws
               end
      end
  end.

(** [sep.join(l)] *)
Fixpoint join (sep : string) (l : list string) : string :=
  match l with
  | [] => EmptyString
  | [x] => x
  | x :: xs => x +:+ sep +:+ join sep xs
  end.

(** [s.rstrip("\n")] *)
Fixpoint rstrip_nl (s : string) : string :=
  match s with
  | EmptyString => EmptyString
  | String c rest =>
      match rstrip_nl rest with
      | EmptyString => if Ascii.eqb c "010"%char then EmptyString
                       else String c EmptyString
      | r => String c r
      end
  end.

(** [str(n)] for an int. *)
Definition of_Z (n : Z) : string := NilZero.string_of_int (Z.to_int n).

End PyStr.

(** ** Exceptions and the state-and-exception monad *)

(** The [Exception] instances the program raises or meets. A failed tuple
    assignment is a [ValueError] in Python; it is kept apart from the
    [ValueError]s the program raises itself because its message depends on
    the interpreter. *)
Inductive exn : Type :=
| ValueError (msg : string)
| UnpackError (expected got : nat)
| NotConnectedError
| TypeError (msg : string)
| OSError (path : string)
| IncompleteReadError
| LimitOverrunError
| UnicodeDecodeError
| OtherError (what : string).

Inductive res (A : Type) : Type :=
| Ok (a : A)
| Raise (e : exn).
Arguments Ok {A} a.
Arguments Raise {A} e.

(** A Python routine over a mutable state [S]: the state it leaves and either
    its value or the exception it raised. Mutations made before a [raise]
    stay. *)
Definition py (S A : Type) : Type := S -> S * res A.

Definition ret {S A} (a : A) : py S A := fun s => (s, Ok a).
Definition raise {S A} (e : exn) : py S A := fun s => (s, Raise e).
Definition bind {S A B} (m : py S A) (k : A -> py S B) : py S B :=
  fun s => match m s with
           | (s', Ok a) => k a s'
           | (s', Raise e) => (s', Raise e)
           end.
Definition get {S} : py S S := fun s => (s, Ok s).
Definition modify {S} (f : S -> S) : py S unit := fun s => (f s, Ok tt).

(** [try: m  except Exception as e: h e] *)
Definition try_except {S A} (m : py S A) (h : exn -> py S A) : py S A :=
  fun s => match m s with
           | (s', Ok a) => (s', Ok a)
           | (s', Raise e) => h e s'
           end.

Declare Scope py_scope.
Delimit Scope py_scope with py.
Notation "x <- m ;; k" := (bind m (fun x => k))
  (at level 100, m at next level, right associativity) : py_scope.
Notation "m ;; k" := (bind m (fun _ => k))
  (at level 100, right associativity) : py_scope.
Local Open Scope py_scope.

(** ** The device state the interface consumes *)

(** The controller variants, as the usage text of [run_controller_socket.py]
    lists them. *)
Inductive Controller : Type := JOYCON_L | JOYCON_R | PRO_CONTROLLER.

Global Instance Controller_eq_dec : EqDecision Controller.
Proof. solve_decision. Defined.

(** What the program takes from Python and from classes outside this
    directory without fixing it: [int] on a string ([None] where it raises
    [ValueError]); [bytes.decode("utf-8")] ([None] where it raises
    [UnicodeDecodeError]; a text is kept as its bytes); [str] of a
    [Controller] member; the name of the class of the stick objects; the
    bounded range of a stick component, and what the setters of the stick
    class do with a value outside it: the value they store instead, or the
    exception they raise. *)
Class Externals : Type := {
  py_int : string -> option Z;
  decode_utf8 : string -> option string;
  Controller_str : Controller -> string;
  stick_class_name : string;
  axis_in_range : Z -> bool;
  axis_out_of_range : Z -> res Z
}.

Inductive Preset : Type := Center | Up | Down | Left | Right.

(** Modelled from the spec: the stick class of [joycontrol.controller_state]
    is not among the sources. A stick holds a horizontal and a vertical integer
    component; each preset has a defined (h, v) pair; either component can be
    set directly and read back. *)
Record StickState : Type := mkStick {
  stick_h : Z;
  stick_v : Z;
  preset_pos : Preset -> Z * Z
}.

(** Modelled from the spec: a preset method of the stick class, which puts
    the stick on the preset's defined pair. *)
Definition set_preset (p : Preset) (s : StickState) : StickState :=
  mkStick (fst (preset_pos s p)) (snd (preset_pos s p)) (preset_pos s).

(** Modelled from the spec: the five preset methods [set_center], [set_up],
    [set_down], [set_left] and [set_right] of the stick class. *)
Definition set_center : StickState -> StickState := set_preset Center.
Definition set_up : StickState -> StickState := set_preset Up.
Definition set_down : StickState -> StickState := set_preset Down.
Definition set_left : StickState -> StickState := set_preset Left.
Definition set_right : StickState -> StickState := set_preset Right.

(** Modelled from the spec: the store of one component, the other component
    and the presets staying as they are. *)
Definition with_h (h : Z) (s : StickState) : StickState :=
  mkStick h (stick_v s) (preset_pos s).
Definition with_v (v : Z) (s : StickState) : StickState :=
  mkStick (stick_h s) v (preset_pos s).

(** Modelled from the spec: what a direct set makes of its argument. The
    components have a bounded axis range: a value of the range is stored as it
    is; for a value outside the range the spec fixes nothing, and the outcome
    is the parameter [axis_out_of_range]. *)
Definition axis_value `{Externals} (val : Z) : res Z :=
  if axis_in_range val then Ok val else axis_out_of_range val.

(** Modelled from the spec: [set_h] of the stick class, the direct numeric set
    of the horizontal component within the bounded axis range. *)
Definition set_h `{Externals} (val : Z) : py StickState unit :=
  fun s => match axis_value val with
           | Ok h => (with_h h s, Ok tt)
           | Raise e => (s, Raise e)
           end.

(** Modelled from the spec: [set_v] of the stick class, the direct numeric set
    of the vertical component within the bounded axis range. *)
Definition set_v `{Externals} (val : Z) : py StickState unit :=
  fun s => match axis_value val with
           | Ok v => (with_v v s, Ok tt)
           | Raise e => (s, Raise e)
           end.

(** Modelled from the spec: [get_h] and [get_v] of the stick class, the
    readback of the components. *)
Definition get_h (s : StickState) : Z := stick_h s.
Definition get_v (s : StickState) : Z := stick_v s.

(** Modelled from the spec: the [ControllerState] class is not among the
    sources. It aggregates the advertised buttons and the held ones, the two
    sticks and the optional tag payload, for one controller variant. *)
Record ControllerState : Type := mkCS {
  controller : Controller;
  available_buttons : list string;
  held : gset string;
  l_stick_state : StickState;
  r_stick_state : StickState;
  nfc_content : option (list byte)
}.

Definition with_l_stick (s : StickState) (cs : ControllerState) : ControllerState :=
  mkCS (controller cs) (available_buttons cs) (held cs) s (r_stick_state cs) (nfc_content cs).
Definition with_r_stick (s : StickState) (cs : ControllerState) : ControllerState :=
  mkCS (controller cs) (available_buttons cs) (held cs) (l_stick_state cs) s (nfc_content cs).
Definition with_nfc (c : option (list byte)) (cs : ControllerState) : ControllerState :=
  mkCS (controller cs) (available_buttons cs) (held cs) (l_stick_state cs) (r_stick_state cs) c.
Definition with_held (b : gset string) (cs : ControllerState) : ControllerState :=
  mkCS (controller cs) (available_buttons cs) b (l_stick_state cs) (r_stick_state cs) (nfc_content cs).

(** The argument of [asyncio.sleep]: a number of seconds, or a string when a
    registered handler is called with a second textual argument. *)
Inductive delay : Type := Seconds (n : Z) | TextDelay (s : string).

(** A coroutine handed to [asyncio.ensure_future]. *)
Inductive Task : Type := ClearNfc (sec : delay).

(** What a path holds when it is opened for reading. *)
Inductive File : Type :=
| NoFile
| Unreadable
| Content (data : list byte).

(** The effects on the collaborators, in the order they happen. *)
Inductive Event : Type :=
| EvLog (msg : string)
| EvSleep (sec : Z)
| EvSetNfc (content : option (list byte))
| EvOpen (path : string)
| EvRead (path : string)
| EvClose (path : string)
| EvConnect
| EvSend
| EvPress (buttons : list string)
| EvRelease (buttons : list string)
| EvSpawn (t : Task).

(** The controller state together with what surrounds it: the device link
    ([link n] tells whether the link is up at the [n]-th operation on it), the
    file system, the event loop's scheduled tasks and the trace of effects. *)
Record Env : Type := mkEnv {
  state : ControllerState;
  link : nat -> bool;
  link_ops : nat;
  files : string -> File;
  scheduled : list Task;
  trace : list Event
}.

Definition with_state (f : ControllerState -> ControllerState) (e : Env) : Env :=
  mkEnv (f (state e)) (link e) (link_ops e) (files e) (scheduled e) (trace e).
Definition emit (ev : Event) (e : Env) : Env :=
  mkEnv (state e) (link e) (link_ops e) (files e) (scheduled e) (trace e ++ [ev]).
Definition link_used (e : Env) : Env :=
  mkEnv (state e) (link e) (S (link_ops e)) (files e) (scheduled e) (trace e).
Definition spawn (t : Task) (e : Env) : Env :=
  mkEnv (state e) (link e) (link_ops e) (files e) (scheduled e ++ [t]) (trace e ++ [EvSpawn t]).

(** [logger.info(msg)] *)
Definition log_info (msg : string) : py Env unit := modify (emit (EvLog msg)).

(** Modelled from the spec: [ControllerState.set_nfc], the tag-payload setter
    accepting binary content or none. *)
Definition set_nfc (content : option (list byte)) : py Env unit :=
  modify (fun e => emit (EvSetNfc content) (with_state (with_nfc content) e)).

(** Modelled from the spec: an operation on the device link, which can fail
    with the distinguished not-connected condition. *)
Definition on_link (ev : Event) : py Env unit :=
  fun e => let e' := link_used (emit ev e) in
           if link e (link_ops e) then (e', Ok tt) else (e', Raise NotConnectedError).

(** Modelled from the spec: [ControllerState.connect], the asynchronous
    connect. *)
Definition connect : py Env unit := on_link EvConnect.

(** Modelled from the spec: [ControllerState.send], the asynchronous flush of
    the state to the device link. *)
Definition send : py Env unit := on_link EvSend.

(** Modelled from the spec: [button_press] of [joycontrol.controller_state],
    the mutator that holds the given buttons. *)
Definition button_press (buttons : list string) : py Env unit :=
  modify (fun e => emit (EvPress buttons)
                     (with_state (fun cs => with_held (held cs ∪ list_to_set buttons) cs) e)).

(** Modelled from the spec: [button_release] of [joycontrol.controller_state],
    the mutator that releases the given buttons. *)
Definition button_release (buttons : list string) : py Env unit :=
  modify (fun e => emit (EvRelease buttons)
                     (with_state (fun cs => with_held (held cs ∖ list_to_set buttons) cs) e)).

(** [asyncio.sleep(sec)] *)
Definition sleep (sec : delay) : py Env unit :=
  match sec with
  | Seconds n => modify (emit (EvSleep n))
  | TextDelay _ => raise (TypeError "'<=' not supported between instances of 'str' and 'int'")
  end.

(** Running [m] on a part of the state, as a method call on an attribute. *)
Definition zoom {S T A} (proj : S -> T) (put : T -> S -> S) (m : py T A) : py S A :=
  fun s => match m (proj s) with (t, r) => (put t s, r) end.

(** ** [joycontrol/socket_interface.py] *)

(** A command handler: called with the argument strings, it yields an optional
    result text or raises. *)
Definition Handler : Type := list string -> py Env (option string).

(** What [print] was called with. *)
Inductive Printed : Type :=
| PrintStr (s : string)
| PrintExn (e : exn).

(** A [ControllerSocketInterface] object with the standard output of its
    process: the registry [self.commands], [self.controller_state] and the
    printed lines. *)
Record World : Type := mkWorld {
  commands : gmap string Handler;
  controller_state : Env;
  stdout : list Printed
}.

Definition with_commands (c : gmap string Handler) (w : World) : World :=
  mkWorld c (controller_state w) (stdout w).
Definition with_controller_state (e : Env) (w : World) : World :=
  mkWorld (commands w) e (stdout w).
Definition print (p : Printed) : py World unit :=
  modify (fun w => mkWorld (commands w) (controller_state w) (stdout w ++ [p])).

(** A call on [self.controller_state]. *)
Definition on_state {A} (m : py Env A) : py World A :=
  zoom controller_state with_controller_state m.

Definition dq : string := String "034"%char EmptyString.

(** [SocketInterface.add_command] *)
Definition add_command (name : string) (command : Handler) : py (gmap string Handler) unit :=
  fun cmds =>
    match cmds !! name with
    | Some _ => (cmds, Raise (ValueError ("Command " +:+ name +:+ " already registered.")))
    | None => (<[name := command]> cmds, Ok tt)
    end.

(** A failure of [reader.readuntil()] before the end of the stream: the line
    is longer than the buffer, or the connection broke. *)
Inductive ReadFailure : Type := LimitOverrun | ConnectionReset.

(** What one call of [reader.readuntil()] gives: a chunk of bytes that ends
    with the newline, or a failure. *)
Inductive Read : Type :=
| Chunk (data : string)
| Failed (f : ReadFailure).

Definition read_exn (f : ReadFailure) : exn :=
  match f with
  | LimitOverrun => LimitOverrunError
  | ConnectionReset => OSError "Connection reset by peer"
  end.

Section SocketInterface.
Context `{Ext : Externals}.

(** The value conversion of [_set_stick]: [int(value)] behind the test for a
    missing value. *)
Definition stick_value (value : option string) : res Z :=
  match value with
  | None => Raise (ValueError "Missing value")
  | Some value =>
      match py_int value with
      | Some val => Ok val
      | None => Raise (ValueError ("Unexpected stick value " +:+ dq +:+ value +:+ dq))
      end
  end.

(** [ControllerSocketInterface._set_stick]; the stick object is the state. *)
Definition _set_stick (direction : string) (value : option string) : py StickState string :=
  (if direction =? "center" then modify set_center
   else if direction =? "up" then modify set_up
   else if direction =? "down" then modify set_down
   else if direction =? "left" then modify set_left
   else if direction =? "right" then modify set_right
   else if (direction =? "h") || (direction =? "horizontal") then
     match stick_value value with
     | Ok val => set_h val
     | Raise e => raise e
     end
   else if (direction =? "v") || (direction =? "vertical") then
     match stick_value value with
     | Ok val => set_v val
     | Raise e => raise e
     end
   else raise (ValueError ("Unexpected argument " +:+ dq +:+ direction +:+ dq)));;
  stick <- get;;
  ret (stick_class_name +:+ " was set to (" +:+ PyStr.of_Z (get_h stick) +:+ ", "
       +:+ PyStr.of_Z (get_v stick) +:+ ").").

Definition side_error : exn :=
  ValueError ("Value of side must be " +:+ dq +:+ "l" +:+ dq +:+ ", " +:+ dq +:+ "left" +:+ dq
              +:+ " or " +:+ dq +:+ "r" +:+ dq +:+ ", " +:+ dq +:+ "right" +:+ dq).

(** [ControllerSocketInterface.cmd_stick] *)
Definition cmd_stick (side direction : string) (value : option string) : py Env string :=
  if (side =? "l") || (side =? "left") then
    zoom (fun e => l_stick_state (state e)) (fun s => with_state (with_l_stick s))
      (_set_stick direction value)
  else if (side =? "r") || (side =? "right") then
    zoom (fun e => r_stick_state (state e)) (fun s => with_state (with_r_stick s))
      (_set_stick direction value)
  else raise side_error.

(** The call of [cmd_stick] on the unpacked [args]: it binds the positional arguments, and fails
    with [TypeError] when their number does not fit the signature. *)
Definition call_cmd_stick : Handler := fun args =>
  match args with
  | [side; direction] => r <- cmd_stick side direction None;; ret (Some r)
  | [side; direction; value] => r <- cmd_stick side direction (Some value);; ret (Some r)
  | _ => raise (TypeError "cmd_stick() got a wrong number of positional arguments")
  end.

(** [getattr(self, f'cmd_{cmd}')] where [hasattr] holds: the class has one
    attribute of that form, [cmd_stick]. *)
Definition builtin (cmd : string) : option Handler :=
  if cmd =? "stick" then Some call_cmd_stick else None.

(** The first part of [handle_line]: from the line to [cmd] and [args]. A
    tuple assignment fails when [split] gives another number of fields. *)
Definition parse_line (line : string) : res (string * list string) :=
  if PyStr.startswith "btn:" line then
    match PyStr.split ":" line with
    | [action; button; pressed] =>
        if pressed =? "true" then Ok ("hold", [button]) else Ok ("release", [button])
    | fields => Raise (UnpackError 3 (length fields))
    end
  else if PyStr.startswith "stick:" line then
    match PyStr.split ":" line with
    | [action; stick; direction; pressed] =>
        if pressed =? "true" then Ok ("stick", [stick; direction])
        else Ok ("stick", [stick; "center"])
    | fields => Raise (UnpackError 4 (length fields))
    end
  else if PyStr.startswith "nfc:" line then
    match PyStr.split_max ":" 1 line with
    | [action; file_path] => Ok ("nfc", [file_path])
    | fields => Raise (UnpackError 2 (length fields))
    end
  else Ok (EmptyString, []).

(** [if result: print(result)] *)
Definition print_result (result : option string) : py World unit :=
  match result with
  | Some (String c r) => print (PrintStr (String c r))
  | _ => ret tt
  end.

(** The guarded call of a handler: [try: ... except Exception as e: print(e)]. *)
Definition run_handler (handler : Handler) (args : list string) : py World unit :=
  try_except (result <- on_state (handler args);; print_result result)
             (fun e => print (PrintExn e)).

Definition not_found (cmd : string) : Printed :=
  PrintStr ("command " +:+ cmd +:+ " not found, call help for help.").

(** The second part of [handle_line]: the [if hasattr / elif cmd in
    self.commands / else] chain. *)
Definition dispatch (cmd : string) (args : list string) : py World unit :=
  match builtin cmd with
  | Some handler => run_handler handler args
  | None =>
      w <- get;;
      match commands w !! cmd with
      | Some handler => run_handler handler args
      | None => print (not_found cmd)
      end
  end.

(** The last part of [handle_line]: the flush, whose [NotConnectedError] is
    logged and raised again. *)
Definition flush : py World unit :=
  fun w => match on_state send w with
           | (w', Raise NotConnectedError) =>
               (with_controller_state (emit (EvLog "Connection was lost.") (controller_state w')) w',
                Raise NotConnectedError)
           | r => r
           end.

(** [ControllerSocketInterface.handle_line] *)
Definition handle_line (line : string) : py World unit :=
  match line with
  | EmptyString => ret tt
  | _ =>
      match parse_line line with
      | Raise e => raise e
      | Ok (cmd, args) => dispatch cmd args;; flush
      end
  end.

(** [ControllerSocketInterface.handle_client]: the reader is the list of what
    the calls of [readuntil] will give; at the end of the stream [readuntil]
    raises [IncompleteReadError]. Each chunk is decoded, stripped of its
    newline and handled; a failed read and a chunk that does not decode end
    the loop like an exception of [handle_line]. The loop ends by an exception
    only. *)
Fixpoint handle_client (reader : list Read) (w : World) : World * exn :=
  match reader with
  | [] => (w, IncompleteReadError)
  | Failed f :: _ => (w, read_exn f)
  | Chunk data :: rest =>
      match decode_utf8 data with
      | None => (w, UnicodeDecodeError)
      | Some line =>
          match handle_line (PyStr.rstrip_nl line) w with
          | (w', Ok _) => handle_client rest w'
          | (w', Raise e) => (w', e)
          end
      end
  end.

End SocketInterface.

(** ** [run_controller_socket.py] *)

Section Commands.
Context `{Ext : Externals}.

(** [ensure_valid_button]: the loop stops at the first button that is not
    advertised. *)
Fixpoint ensure_valid_button (cs : ControllerState) (buttons : list string) : res unit :=
  match buttons with
  | [] => Ok tt
  | button :: rest =>
      if bool_decide (button ∈ available_buttons cs) then ensure_valid_button cs rest
      else Raise (ValueError ("Button " +:+ button +:+ " does not exist on "
                              +:+ Controller_str (controller cs)))
  end.

Definition check_buttons (buttons : list string) : py Env unit :=
  fun e => (e, ensure_valid_button (state e) buttons).

(** The [hold] command. *)
Definition hold : Handler := fun args =>
  match args with
  | [] => raise (ValueError (dq +:+ "hold" +:+ dq +:+ " command requires a button!"))
  | _ =>
      check_buttons args;;
      log_info ("Holding " +:+ PyStr.join " " args);;
      connect;;
      button_press args;;
      ret None
  end.

(** The [release] command. *)
Definition release : Handler := fun args =>
  match args with
  | [] => raise (ValueError (dq +:+ "release" +:+ dq +:+ " command requires a button!"))
  | _ =>
      check_buttons args;;
      log_info ("Releasing " +:+ PyStr.join " " args);;
      connect;;
      button_release args;;
      ret None
  end.

(** [clear_nfc] *)
Definition clear_nfc (sec : delay) : py Env unit :=
  sleep sec;;
  log_info "Clearing NFC content";;
  set_nfc None.

(** What a scheduled task does when the event loop runs it. *)
Definition run_task (t : Task) : py Env unit :=
  match t with ClearNfc sec => clear_nfc sec end.

(** The body of the [with open(file_path, 'rb')] block of [nfc]: the file is
    closed on the way out, also when the read raises. *)
Definition load_nfc (file_path : string) (sec : delay) : py Env unit :=
  fun e =>
    match files e file_path with
    | NoFile => (e, Raise (OSError file_path))
    | Unreadable =>
        (emit (EvClose file_path) (emit (EvRead file_path) (emit (EvOpen file_path) e)),
         Raise (OSError file_path))
    | Content content =>
        (modify (emit (EvOpen file_path));;
         modify (emit (EvRead file_path));;
         log_info ("Setting NFC content: " +:+ file_path);;
         set_nfc (Some content);;
         modify (spawn (ClearNfc sec));;
         modify (emit (EvClose file_path))) e
    end.

(** [nfc] *)
Definition nfc (file_path : string) (sec : delay) : py Env unit :=
  e <- get;;
  if bool_decide (controller (state e) = JOYCON_L) then
    raise (ValueError "NFC content cannot be set for JOYCON_L")
  else if file_path =? EmptyString then
    raise (ValueError (dq +:+ "nfc" +:+ dq
                       +:+ " command requires file path to an nfc dump as argument!"))
  else
    clear_nfc (Seconds 0);;
    load_nfc file_path sec.

(** The call of [nfc] on the unpacked arguments of a command: [sec] is 3
    unless a second argument is given. *)
Definition call_nfc : Handler := fun args =>
  match args with
  | [file_path] => nfc file_path (Seconds 3);; ret None
  | [file_path; sec] => nfc file_path (TextDelay sec);; ret None
  | _ => raise (TypeError "nfc() got a wrong number of positional arguments")
  end.

(** [_register_commands_with_controller_state] *)
Definition _register_commands_with_controller_state : py (gmap string Handler) unit :=
  add_command "hold" hold;;
  add_command "release" release;;
  add_command "nfc" call_nfc.

End Commands.

(** ** The endpoint of the server *)

(** What [start_server] and [cleanup] take from [os] and [asyncio]: the state
    of the operating system, the server objects, and the five calls on them. *)
Class Platform : Type := {
  Os : Type;
  Srv : Type;
  os_unlink : string -> py Os unit;
  os_path_exists : string -> Os -> bool;
  os_chmod : string -> Z -> py Os unit;
  start_unix_server : string -> py Os Srv;
  server_close : Srv -> py Os unit
}.

Section Endpoint.
Context `{P : Platform}.

(** The attributes of a [ControllerSocketInterface] that [start_server] and
    [cleanup] use, with the operating system they act on. *)
Record Endpoint : Type := mkEndpoint {
  socket_location : string;
  server : option Srv;
  os : Os
}.

Definition with_os (o : Os) (ep : Endpoint) : Endpoint :=
  mkEndpoint (socket_location ep) (server ep) o.
Definition with_server (srv : Srv) (ep : Endpoint) : Endpoint :=
  mkEndpoint (socket_location ep) (Some srv) (os ep).

(** A call into the operating system. *)
Definition on_os {A} (m : py Os A) : py Endpoint A := zoom os with_os m.

(** The first statement of [start_server]: [os.unlink] whose [OSError] is
    raised again only when the path exists. *)
Definition remove_stale : py Endpoint unit :=
  fun ep =>
    match on_os (os_unlink (socket_location ep)) ep with
    | (ep', Raise (OSError path)) =>
        if os_path_exists (socket_location ep') (os ep') then (ep', Raise (OSError path))
        else (ep', Ok tt)
    | r => r
    end.

(** [ControllerSocketInterface.start_server] *)
Definition start_server : py Endpoint unit :=
  remove_stale;;
  ep <- get;;
  srv <- on_os (start_unix_server (socket_location ep));;
  modify (with_server srv);;
  on_os (os_chmod (socket_location ep) 511).

(** [ControllerSocketInterface.cleanup]: [self.server.close()] fails on the
    [None] the constructor left; the handler of the [try] only raises again. *)
Definition cleanup : py Endpoint unit :=
  ep <- get;;
  match server ep with
  | None => raise (OtherError "AttributeError: 'NoneType' object has no attribute 'close'")
  | Some srv =>
      on_os (server_close srv);;
      try_except (on_os (os_unlink (socket_location ep))) (fun e => raise e)
  end.

End Endpoint.

(** ** The specification's notions *)

Section SpecNotions.
Context `{Ext : Externals}.

(** Handler resolution as the specification words it: a built-in handler
    named for the command first, else the command registry, else nothing. *)
Definition resolve (cmd : string) (w : World) : option Handler :=
  match builtin cmd with
  | Some handler => Some handler
  | None => commands w !! cmd
  end.

(** What a direct set stores for the [value] argument of [_set_stick]: the
    integer behind [int], within the axis range. *)
Definition requested_value (value : option string) : res Z :=
  match stick_value value with
  | Ok val => axis_value val
  | Raise err => Raise err
  end.

(** The result text of a stick command. *)
Definition stick_msg (s : StickState) : string :=
  stick_class_name +:+ " was set to (" +:+ PyStr.of_Z (get_h s) +:+ ", "
  +:+ PyStr.of_Z (get_v s) +:+ ").".

(** The error of [ensure_valid_button] for one button. *)
Definition button_error (cs : ControllerState) (button : string) : exn :=
  ValueError ("Button " +:+ button +:+ " does not exist on " +:+ Controller_str (controller cs)).

End SpecNotions.

(** The side tokens and the stick each of them selects. *)
Definition is_left_side (side : string) : bool := (side =? "l") || (side =? "left").
Definition is_right_side (side : string) : bool := (side =? "r") || (side =? "right").
Definition valid_side (side : string) : bool := is_left_side side || is_right_side side.

Definition stick_of (side : string) (e : Env) : StickState :=
  if is_left_side side then l_stick_state (state e) else r_stick_state (state e).
Definition other_stick (side : string) (e : Env) : StickState :=
  if is_left_side side then r_stick_state (state e) else l_stick_state (state e).
Definition put_stick (side : string) (s : StickState) (e : Env) : Env :=
  if is_left_side side then with_state (with_l_stick s) e else with_state (with_r_stick s) e.

(** The direction tokens. *)
Definition preset_of (direction : string) : option Preset :=
  if direction =? "center" then Some Center
  else if direction =? "up" then Some Up
  else if direction =? "down" then Some Down
  else if direction =? "left" then Some Left
  else if direction =? "right" then Some Right
  else None.
Definition is_horizontal (direction : string) : bool :=
  (direction =? "h") || (direction =? "horizontal").
Definition is_vertical (direction : string) : bool :=
  (direction =? "v") || (direction =? "vertical").

(** The command grammar of the specification: [btn:<button>:true|false],
    [stick:<side>:<direction>:true|false] and [nfc:<path>], where only the
    path may hold colons. *)
Fixpoint colon_free (s : string) : bool :=
  match s with
  | EmptyString => true
  | String c rest => negb (Ascii.eqb c ":") && colon_free rest
  end.

Definition is_flag (s : string) : bool := (s =? "true") || (s =? "false").

Definition in_grammar (line : string) : bool :=
  match PyStr.split ":" line with
  | ["btn"; button; pressed] => is_flag pressed
  | ["stick"; side; direction; pressed] => is_flag pressed
  | "nfc" :: path :: more => true
  | _ => false
  end.

(** The lines that start with none of the three prefixes of [handle_line]. *)
Definition unprefixed (line : string) : bool :=
  negb (PyStr.startswith "btn:" line) && negb (PyStr.startswith "stick:" line)
  && negb (PyStr.startswith "nfc:" line).

(** ** A concrete device for the examples *)

Module Sample.

(** [int] on plain decimal numerals with an optional minus sign. *)
Definition decimal_int (s : string) : option Z :=
  match s with
  | EmptyString => None
  | _ => option_map Z.of_int (NilZero.int_of_string s)
  end.

Definition controller_name (c : Controller) : string :=
  match c with
  | JOYCON_L => "JOYCON_L"
  | JOYCON_R => "JOYCON_R"
  | PRO_CONTROLLER => "PRO_CONTROLLER"
  end.

(** [decode] on the chunks of plain ASCII. *)
Definition ascii_only (s : string) : bool :=
  forallb (fun c => Nat.ltb (nat_of_ascii c) 128) (list_ascii_of_string s).

Definition decode_ascii (s : string) : option string :=
  if ascii_only s then Some s else None.

(** A stick whose components range over [0, 4096) and whose setters raise
    outside of it. *)
Definition in_range (val : Z) : bool := Z.leb 0 val && Z.ltb val 4096.

#[global] Instance ext : Externals := {|
  py_int := decimal_int;
  decode_utf8 := decode_ascii;
  Controller_str := controller_name;
  stick_class_name := "StickState";
  axis_in_range := in_range;
  axis_out_of_range := fun _ => Raise (ValueError "Stick values must be in [0,4096)")
|}.

Definition presets (p : Preset) : Z * Z :=
  match p with
  | Center => (2048, 2048)
  | Up => (2048, 3548)
  | Down => (2048, 548)
  | Left => (548, 2048)
  | Right => (3548, 2048)
  end.

Definition stick0 : StickState := mkStick 100 200 presets.

Definition amiibo : list byte := [x01; x02; x03].

Definition files0 (path : string) : File :=
  if path =? "/tmp/amiibo.bin" then Content amiibo
  else if path =? "/tmp/locked.bin" then Unreadable
  else NoFile.

Definition cs0 (c : Controller) : ControllerState :=
  mkCS c ["a"; "b"; "x"; "y"] {["b"]} stick0 stick0 (Some [x2a]).

(** A device whose link is up ([up = true]) or down at every operation. *)
Definition env0 (c : Controller) (up : bool) : Env :=
  mkEnv (cs0 c) (fun _ => up) 0 files0 [] [].

(** The registry as [_main] leaves it. *)
Definition registry0 : gmap string Handler :=
  fst (_register_commands_with_controller_state ∅).

Definition world0 (c : Controller) (up : bool) : World :=
  mkWorld registry0 (env0 c up) [].

(** A handler that always raises, and one that returns a text. *)
Definition failing : Handler := fun _ => raise (OtherError "boom").
Definition greeting : Handler := fun _ => ret (Some "hello").

End Sample.

(** ** A concrete file system for the examples *)

Module SampleOs.

Inductive Node : Type := SocketFile (mode : Z) | Directory.

(** The paths that exist, and the paths whose server was closed. *)
Record Disk : Type := mkDisk {
  nodes : gmap string Node;
  closed : list string
}.

Definition unlink (path : string) : py Disk unit :=
  fun d =>
    match nodes d !! path with
    | Some (SocketFile _) => (mkDisk (delete path (nodes d)) (closed d), Ok tt)
    | _ => (d, Raise (OSError path))
    end.

Definition bind_socket (path : string) : py Disk string :=
  fun d =>
    match nodes d !! path with
    | None => (mkDisk (<[path := SocketFile 493]> (nodes d)) (closed d), Ok path)
    | Some _ => (d, Raise (OSError path))
    end.

Definition chmod (path : string) (mode : Z) : py Disk unit :=
  fun d =>
    match nodes d !! path with
    | Some (SocketFile _) => (mkDisk (<[path := SocketFile mode]> (nodes d)) (closed d), Ok tt)
    | _ => (d, Raise (OSError path))
    end.

Definition close (srv : string) : py Disk unit :=
  modify (fun d => mkDisk (nodes d) (closed d ++ [srv])).

#[global] Instance platform : Platform := {|
  Os := Disk;
  Srv := string;
  os_unlink := unlink;
  os_path_exists := fun path d => bool_decide (is_Some (nodes d !! path));
  os_chmod := chmod;
  start_unix_server := bind_socket;
  server_close := close
|}.

(** The same file system on which [chmod] is refused and the bind of the
    path [/full] fails. *)
Definition strict : Platform := {|
  Os := Disk;
  Srv := string;
  os_unlink := unlink;
  os_path_exists := fun path d => bool_decide (is_Some (nodes d !! path));
  os_chmod := fun path _ => raise (OSError path);
  start_unix_server := fun path => if path =? "/full" then raise (OSError path)
                                   else bind_socket path;
  server_close := close
|}.

Definition sock : string := "./joycontrol.socket".

Definition fresh : Endpoint := mkEndpoint sock None (mkDisk ∅ []).
Definition stale : Endpoint := mkEndpoint sock None (mkDisk {[sock := SocketFile 493]} []).
Definition blocked : Endpoint := mkEndpoint sock None (mkDisk {[sock := Directory]} []).

End SampleOs.

(** * Properties *)

Example split_btn : PyStr.split ":" "btn:a:true" = ["btn"; "a"; "true"].
Proof. reflexivity. Qed.

Example split_trailing : PyStr.split ":" "btn:a:" = ["btn"; "a"; EmptyString].
Proof. reflexivity. Qed.

Example split_max_nfc :
  PyStr.split_max ":" 1 "nfc:/tmp/a:b.bin" = ["nfc"; "/tmp/a:b.bin"].
Proof. reflexivity. Qed.

Example rstrip_nl_line :
  PyStr.rstrip_nl ("btn:a:true" +:+ String "010" (String "010" EmptyString)) = "btn:a:true".
Proof. reflexivity. Qed.

Example of_Z_samples : PyStr.of_Z 500 = "500" /\ PyStr.of_Z (-7) = "-7" /\ PyStr.of_Z 0 = "0".
Proof. repeat split; reflexivity. Qed.

Example parse_samples :
  parse_line "btn:a:true" = Ok ("hold", ["a"])
  /\ parse_line "btn:a:false" = Ok ("release", ["a"])
  /\ parse_line "stick:l:up:true" = Ok ("stick", ["l"; "up"])
  /\ parse_line "stick:l:up:false" = Ok ("stick", ["l"; "center"])
  /\ parse_line "nfc:/tmp/a:b.bin" = Ok ("nfc", ["/tmp/a:b.bin"])
  /\ parse_line "foo:bar" = Ok (EmptyString, [])
  /\ parse_line "stick:l:up" = Raise (UnpackError 4 3).
Proof. repeat split; reflexivity. Qed.

Example registry_as_main_leaves_it :
  snd (_register_commands_with_controller_state ∅) = Ok tt
  /\ Sample.registry0 !! "hold" = Some hold
  /\ Sample.registry0 !! "release" = Some release
  /\ Sample.registry0 !! "nfc" = Some call_nfc
  /\ Sample.registry0 !! "stick" = None.
Proof. repeat split; vm_compute; reflexivity. Qed.

Section DispatcherFacts.
Context `{Ext : Externals}.

Lemma run_handler_ok (handler : Handler) (args : list string) (w : World) :
  exists w', run_handler handler args w = (w', Ok tt).
Proof.
  unfold run_handler, try_except, bind, on_state, zoom.
  destruct (handler args (controller_state w)) as [e [result | err]]; simpl.
  - destruct result as [[| c r] |]; simpl; eauto.
  - eauto.
Qed.

Lemma run_handler_raise (handler : Handler) (args : list string) (w : World) e err :
  handler args (controller_state w) = (e, Raise err) ->
  run_handler handler args w = (mkWorld (commands w) e (stdout w ++ [PrintExn err]), Ok tt).
Proof.
  intros H. unfold run_handler, try_except, bind, on_state, zoom. rewrite H. reflexivity.
Qed.

Lemma dispatch_resolve (cmd : string) (args : list string) (w : World) :
  dispatch cmd args w =
    match resolve cmd w with
    | Some handler => run_handler handler args w
    | None => print (not_found cmd) w
    end.
Proof.
  unfold dispatch, resolve. destruct (builtin cmd); [reflexivity |].
  unfold bind, get. destruct (commands w !! cmd); reflexivity.
Qed.

Lemma dispatch_ok (cmd : string) (args : list string) (w : World) :
  exists w', dispatch cmd args w = (w', Ok tt).
Proof.
  rewrite dispatch_resolve. destruct (resolve cmd w).
  - apply run_handler_ok.
  - unfold print, modify. eauto.
Qed.

Lemma flush_cases (w : World) :
  let e := controller_state w in
  let sent := link_used (emit EvSend e) in
  flush w =
    if link e (link_ops e) then (with_controller_state sent w, Ok tt)
    else (with_controller_state (emit (EvLog "Connection was lost.") sent) w,
          Raise NotConnectedError).
Proof.
  unfold flush, on_state, zoom, send, on_link. simpl.
  destruct (link (controller_state w) (link_ops (controller_state w))); reflexivity.
Qed.

Lemma handle_line_parsed (line cmd : string) (args : list string) (w : World) :
  line <> EmptyString ->
  parse_line line = Ok (cmd, args) ->
  handle_line line w = (dispatch cmd args;; flush) w.
Proof.
  intros Hne Hp. unfold handle_line. destruct line; [congruence |].
  rewrite Hp. reflexivity.
Qed.

End DispatcherFacts.

Section Dispatcher.
Context `{Ext : Externals}.

(** C1. For a line that reaches the dispatcher (it is not empty and its
    fields unpack into a command and arguments): the dispatch never raises; a
    failure [err] of the resolved handler is printed and the handler's state
    changes stay; [handle_line] then is the flush on the state the dispatch
    left, so [send] is always called; the only exception that leaves
    [handle_line] is the flush's [NotConnectedError], raised exactly when the
    link is down at the flush, and it ends the read loop of [handle_client]. *)
Theorem handle_line_contains_handler_failures
  (line cmd : string) (args : list string) (w : World) :
  line <> EmptyString ->
  parse_line line = Ok (cmd, args) ->
  exists w1,
    dispatch cmd args w = (w1, Ok tt)
    /\ (forall handler e err,
          resolve cmd w = Some handler ->
          handler args (controller_state w) = (e, Raise err) ->
          w1 = mkWorld (commands w) e (stdout w ++ [PrintExn err]))
    /\ handle_line line w = flush w1
    /\ (exists evs, trace (controller_state (fst (handle_line line w)))
                    = trace (controller_state w1) ++ EvSend :: evs)
    /\ (forall err, snd (handle_line line w) = Raise err ->
          err = NotConnectedError
          /\ link (controller_state w1) (link_ops (controller_state w1)) = false)
    /\ (link (controller_state w1) (link_ops (controller_state w1)) = false ->
          snd (handle_line line w) = Raise NotConnectedError
          /\ forall data chunk rest,
               decode_utf8 data = Some chunk -> PyStr.rstrip_nl chunk = line ->
               handle_client (Chunk data :: rest) w
                 = (fst (handle_line line w), NotConnectedError)).
Proof.
  intros Hne Hparse.
  destruct (dispatch_ok cmd args w) as [w1 Hd].
  assert (Hline : handle_line line w = flush w1).
  { rewrite (handle_line_parsed line cmd args w Hne Hparse). unfold bind. rewrite Hd. reflexivity. }
  exists w1. split; [exact Hd |]. split.
  { intros handler e err Hres Hh.
    rewrite dispatch_resolve, Hres, (run_handler_raise handler args w e err Hh) in Hd.
    congruence. }
  split; [exact Hline |].
  rewrite Hline, flush_cases. cbv zeta.
  destruct (link (controller_state w1) (link_ops (controller_state w1))) eqn:Hup; simpl.
  - split; [exists []; reflexivity |].
    split; [intros err H; discriminate | intros H; discriminate].
  - split; [exists [EvLog "Connection was lost."]; rewrite <- app_assoc; reflexivity |].
    split; [intros err H; split; congruence |].
    intros _. split; [reflexivity |].
    intros data chunk rest Hdec Hchunk. simpl.
    rewrite Hdec, Hchunk, Hline, flush_cases. cbv zeta.
    rewrite Hup. reflexivity.
Qed.

(** C6. The dispatcher runs the handler that the fixed precedence picks: a
    built-in handler of the command's name; else the entry of the registry;
    else it prints the not-found message. The choice is a function of the
    command name and the registry: the built-in [stick] wins whatever the
    registry holds under that name, and a name without a built-in resolves to
    what the registry holds. *)
Theorem dispatch_follows_precedence (cmd : string) (args : list string) (w : World) :
  dispatch cmd args w =
    match resolve cmd w with
    | Some handler => run_handler handler args w
    | None => print (not_found cmd) w
    end
  /\ resolve cmd w =
       match builtin cmd with
       | Some handler => Some handler
       | None => commands w !! cmd
       end
  /\ (forall other, resolve "stick" (with_commands (<["stick" := other]> (commands w)) w)
                    = Some call_cmd_stick)
  /\ (cmd <> "stick" -> resolve cmd w = commands w !! cmd)
  /\ (forall w', commands w' = commands w -> resolve cmd w' = resolve cmd w).
Proof.
  split; [apply dispatch_resolve |].
  split; [reflexivity |].
  split; [reflexivity |].
  split.
  - intros Hne. unfold resolve, builtin.
    destruct (cmd =? "stick") eqn:E; [| reflexivity].
    apply String.eqb_eq in E. contradiction.
  - intros w' Hc. unfold resolve. rewrite Hc. reflexivity.
Qed.

(** C9. An empty line leaves everything as it was: [handle_line] returns at
    once with the same registry, the same device state and the same printed
    lines; the trace and the count of link operations show that nothing was
    sent. *)
Theorem handle_line_empty_is_noop (w : World) :
  handle_line EmptyString w = (w, Ok tt)
  /\ commands (fst (handle_line EmptyString w)) = commands w
  /\ stdout (fst (handle_line EmptyString w)) = stdout w
  /\ state (controller_state (fst (handle_line EmptyString w))) = state (controller_state w)
  /\ trace (controller_state (fst (handle_line EmptyString w))) = trace (controller_state w)
  /\ link_ops (controller_state (fst (handle_line EmptyString w))) = link_ops (controller_state w).
Proof. repeat split. Qed.

End Dispatcher.

Section Parsing.
Context `{Ext : Externals}.

Lemma split_nonempty (s : string) : PyStr.split ":" s <> [].
Proof.
  destruct s as [| c rest]; simpl; [discriminate |].
  destruct (Ascii.eqb c ":"); [discriminate |].
  destruct (PyStr.split ":" rest); discriminate.
Qed.

Lemma split_field (a b : string) :
  colon_free a = true ->
  PyStr.split ":" (a +:+ ":" +:+ b) = a :: PyStr.split ":" b.
Proof.
  induction a as [| c a IH]; simpl; intros Hfree.
  - reflexivity.
  - apply andb_prop in Hfree as [Hc Ha].
    apply negb_true_iff in Hc. rewrite Hc, (IH Ha). reflexivity.
Qed.

Lemma split_last (a : string) : colon_free a = true -> PyStr.split ":" a = [a].
Proof.
  induction a as [| c a IH]; simpl; intros Hfree; [reflexivity |].
  apply andb_prop in Hfree as [Hc Ha].
  apply negb_true_iff in Hc. rewrite Hc, (IH Ha). reflexivity.
Qed.

Lemma parse_unprefixed (line : string) :
  unprefixed line = true -> parse_line line = Ok (EmptyString, []).
Proof.
  unfold unprefixed, parse_line. intros H.
  apply andb_prop in H as [H Hnfc]. apply andb_prop in H as [Hbtn Hstick].
  apply negb_true_iff in Hbtn, Hstick, Hnfc.
  rewrite Hbtn, Hstick, Hnfc. reflexivity.
Qed.

Lemma startswith_app (p x : string) : PyStr.startswith p (p +:+ x) = true.
Proof.
  unfold PyStr.startswith. induction p as [| c p IH]; simpl.
  - destruct x; reflexivity.
  - destruct (ascii_dec c c); [exact IH | contradiction].
Qed.

Lemma parse_btn_other_flag (button pressed : string) :
  colon_free button = true -> colon_free pressed = true -> pressed <> "true" ->
  parse_line ("btn:" +:+ button +:+ ":" +:+ pressed) = Ok ("release", [button]).
Proof.
  intros Hb Hp Hnt. unfold parse_line. rewrite startswith_app.
  change ("btn:" +:+ button +:+ ":" +:+ pressed)
    with ("btn" +:+ ":" +:+ button +:+ ":" +:+ pressed).
  rewrite (split_field "btn") by reflexivity.
  rewrite (split_field button) by exact Hb.
  rewrite (split_last pressed) by exact Hp.
  apply String.eqb_neq in Hnt. rewrite Hnt. reflexivity.
Qed.

Lemma parse_stick_other_flag (side direction pressed : string) :
  colon_free side = true -> colon_free direction = true ->
  colon_free pressed = true -> pressed <> "true" ->
  parse_line ("stick:" +:+ side +:+ ":" +:+ direction +:+ ":" +:+ pressed)
    = Ok ("stick", [side; "center"]).
Proof.
  intros Hs Hd Hp Hnt. unfold parse_line. rewrite startswith_app.
  change (PyStr.startswith "btn:" ("stick:" +:+ side +:+ ":" +:+ direction +:+ ":" +:+ pressed))
    with false.
  cbv iota.
  change ("stick:" +:+ side +:+ ":" +:+ direction +:+ ":" +:+ pressed)
    with ("stick" +:+ ":" +:+ side +:+ ":" +:+ direction +:+ ":" +:+ pressed).
  rewrite (split_field "stick") by reflexivity.
  rewrite (split_field side) by exact Hs.
  rewrite (split_field direction) by exact Hd.
  rewrite (split_last pressed) by exact Hp.
  apply String.eqb_neq in Hnt. rewrite Hnt. reflexivity.
Qed.

(** C2, as the program has it. A non-empty line that starts with none of
    [btn:], [stick:] and [nfc:] is a command with the empty name: when the
    registry holds nothing under that name, the not-found message is printed,
    the flush follows, and nothing but the flush's [NotConnectedError] reaches
    the caller. A [btn:] line of three fields whose last field is not [true]
    is a [release], and a [stick:] line of four fields whose last field is not
    [true] centres the stick: neither is a not-found line. *)
Theorem unprefixed_line_not_found (line : string) (w : World) :
  line <> EmptyString ->
  unprefixed line = true ->
  commands w !! EmptyString = None ->
  handle_line line w
    = flush (mkWorld (commands w) (controller_state w) (stdout w ++ [not_found EmptyString]))
  /\ (exists evs, trace (controller_state (fst (handle_line line w)))
                  = trace (controller_state w) ++ EvSend :: evs)
  /\ (forall err, snd (handle_line line w) = Raise err -> err = NotConnectedError)
  /\ (forall button pressed,
        colon_free button = true -> colon_free pressed = true -> pressed <> "true" ->
        parse_line ("btn:" +:+ button +:+ ":" +:+ pressed) = Ok ("release", [button]))
  /\ (forall side direction pressed,
        colon_free side = true -> colon_free direction = true ->
        colon_free pressed = true -> pressed <> "true" ->
        parse_line ("stick:" +:+ side +:+ ":" +:+ direction +:+ ":" +:+ pressed)
          = Ok ("stick", [side; "center"])).
Proof.
  intros Hne Hun Hreg.
  assert (Hline : handle_line line w
    = flush (mkWorld (commands w) (controller_state w) (stdout w ++ [not_found EmptyString]))).
  { rewrite (handle_line_parsed line EmptyString [] w Hne (parse_unprefixed line Hun)).
    unfold bind. rewrite dispatch_resolve. unfold resolve. simpl. rewrite Hreg. reflexivity. }
  split; [exact Hline |].
  split; [| split; [| split; [exact parse_btn_other_flag | exact parse_stick_other_flag]]];
    rewrite Hline, flush_cases; cbv zeta; simpl;
    destruct (link (controller_state w) (link_ops (controller_state w))); simpl.
  - exists []; reflexivity.
  - exists [EvLog "Connection was lost."]. rewrite <- app_assoc. reflexivity.
  - intros err H; discriminate.
  - intros err H; congruence.
Qed.

End Parsing.

(** C2, the claim as written fails. [btn:b:maybe] is not a line of the
    grammar, yet it is handled as a release of [b]: the button is no longer
    held and no not-found message is printed. [btn:a] is not a line of the
    grammar either, and the tuple assignment of [handle_line] fails on it: the
    error reaches the caller, nothing is printed and nothing is sent. And with
    a handler registered under the empty name, [foo:bar] runs that handler. *)
Lemma unmatched_line_not_always_not_found :
  let w := Sample.world0 PRO_CONTROLLER true in
  let named := with_commands (fst (add_command EmptyString Sample.greeting (commands w))) w in
  in_grammar "btn:b:maybe" = false
  /\ parse_line "btn:b:maybe" = Ok ("release", ["b"])
  /\ snd (handle_line "btn:b:maybe" w) = Ok tt
  /\ stdout (fst (handle_line "btn:b:maybe" w)) = []
  /\ "b" ∈ held (state (controller_state w))
  /\ ("b" ∉ held (state (controller_state (fst (handle_line "btn:b:maybe" w)))))
  /\ in_grammar "btn:a" = false
  /\ handle_line "btn:a" w = (w, Raise (UnpackError 3 2))
  /\ in_grammar "foo:bar" = false
  /\ stdout (fst (handle_line "foo:bar" named)) = [PrintStr "hello"].
Proof.
  cbv zeta.
  split; [reflexivity |]. split; [reflexivity |].
  split; [vm_compute; reflexivity |]. split; [vm_compute; reflexivity |].
  split; [compute_done |]. split; [compute_done |].
  split; [reflexivity |]. split; [vm_compute; reflexivity |].
  split; [reflexivity |]. vm_compute; reflexivity.
Qed.

Lemma unprefixed_line_not_found_witness :
  let w := Sample.world0 PRO_CONTROLLER true in
  "foo:bar" <> EmptyString
  /\ unprefixed "foo:bar" = true
  /\ commands w !! EmptyString = None
  /\ handle_line "foo:bar" w
     = flush (mkWorld (commands w) (controller_state w) (stdout w ++ [not_found EmptyString]))
  /\ stdout (fst (handle_line "foo:bar" w))
     = [PrintStr "command  not found, call help for help."].
Proof.
  cbv zeta.
  assert (H1 : "foo:bar" <> EmptyString) by discriminate.
  assert (H2 : unprefixed "foo:bar" = true) by reflexivity.
  assert (H3 : commands (Sample.world0 PRO_CONTROLLER true) !! EmptyString = None)
    by (vm_compute; reflexivity).
  pose proof (unprefixed_line_not_found "foo:bar" (Sample.world0 PRO_CONTROLLER true) H1 H2 H3)
    as (Hline & _).
  split; [exact H1 |]. split; [exact H2 |]. split; [exact H3 |].
  split; [exact Hline |]. vm_compute; reflexivity.
Defined.


Section Registry.
Context `{Ext : Externals}.

(** C7. [add_command] on a name the registry holds raises the duplicate
    error and leaves the registry as it was. On a fresh name it returns, the
    registry then holds the handler under that name and nothing else moved,
    and the dispatcher runs the handler for that name whenever no built-in
    handler bears it. Looking a name up never raises: the registry gives a
    handler or nothing, and the dispatch of any name returns normally. *)
Theorem add_command_registers
  (name : string) (command : Handler) (cmds : gmap string Handler) :
  (is_Some (cmds !! name) ->
     add_command name command cmds
       = (cmds, Raise (ValueError ("Command " +:+ name +:+ " already registered."))))
  /\ (cmds !! name = None ->
        add_command name command cmds = (<[name := command]> cmds, Ok tt)
        /\ fst (add_command name command cmds) !! name = Some command
        /\ (forall other, other <> name ->
              fst (add_command name command cmds) !! other = cmds !! other)
        /\ (forall w args,
              commands w = fst (add_command name command cmds) ->
              builtin name = None ->
              resolve name w = Some command
              /\ dispatch name args w = run_handler command args w))
  /\ (forall other, cmds !! other = None \/ exists handler, cmds !! other = Some handler)
  /\ (forall other args w, exists w', dispatch other args w = (w', Ok tt)).
Proof.
  split; [| split; [| split]].
  - intros [old Hold]. unfold add_command. rewrite Hold. reflexivity.
  - intros Hfresh. unfold add_command. rewrite Hfresh. simpl.
    split; [reflexivity |].
    split; [apply lookup_insert_eq |].
    split; [intros other Hne; apply lookup_insert_ne; congruence |].
    intros w args Hw Hb.
    assert (Hres : resolve name w = Some command).
    { unfold resolve. rewrite Hb, Hw. apply lookup_insert_eq. }
    split; [exact Hres |]. rewrite dispatch_resolve, Hres. reflexivity.
  - intros other. destruct (cmds !! other) as [handler |]; eauto.
  - intros other args w. apply dispatch_ok.
Qed.

End Registry.

Lemma add_command_registers_witness :
  is_Some (Sample.registry0 !! "hold")
  /\ fst (add_command "hold" Sample.greeting Sample.registry0) = Sample.registry0
  /\ snd (add_command "hold" Sample.greeting Sample.registry0)
     = Raise (ValueError "Command hold already registered.")
  /\ Sample.registry0 !! "dance" = None
  /\ snd (add_command "dance" Sample.greeting Sample.registry0) = Ok tt
  /\ fst (add_command "dance" Sample.greeting Sample.registry0) !! "dance"
     = Some Sample.greeting.
Proof.
  assert (Hheld : is_Some (Sample.registry0 !! "hold")) by (vm_compute; eauto).
  assert (Hfresh : Sample.registry0 !! "dance" = None) by (vm_compute; reflexivity).
  destruct (add_command_registers "hold" Sample.greeting Sample.registry0) as (Hdup & _).
  destruct (add_command_registers "dance" Sample.greeting Sample.registry0)
    as (_ & Hnew & _).
  specialize (Hdup Hheld). destruct (Hnew Hfresh) as (Hadd & Hlook & _).
  split; [exact Hheld |].
  split; [rewrite Hdup; reflexivity |].
  split; [rewrite Hdup; reflexivity |].
  split; [exact Hfresh |].
  split; [rewrite Hadd; reflexivity | exact Hlook].
Defined.

Section Stick.
Context `{Ext : Externals}.

Lemma zoom_run {S T A} (proj : S -> T) (put : T -> S -> S) (m : py T A) (s : S) :
  zoom proj put m s = (put (fst (m (proj s))) s, snd (m (proj s))).
Proof. unfold zoom. destruct (m (proj s)); reflexivity. Qed.

Lemma put_stick_same (side : string) (e : Env) : put_stick side (stick_of side e) e = e.
Proof.
  unfold put_stick, stick_of. destruct e as [[c a b l r n] lk ops fl sch tr].
  destruct (is_left_side side); reflexivity.
Qed.

Lemma stick_of_put (side : string) (s : StickState) (e : Env) :
  stick_of side (put_stick side s e) = s.
Proof. unfold put_stick, stick_of. destruct (is_left_side side); reflexivity. Qed.

Lemma other_stick_put (side : string) (s : StickState) (e : Env) :
  other_stick side (put_stick side s e) = other_stick side e.
Proof. unfold put_stick, other_stick. destruct (is_left_side side); reflexivity. Qed.

Lemma put_stick_twice (side : string) (s s' : StickState) (e : Env) :
  put_stick side s' (put_stick side s e) = put_stick side s' e.
Proof. unfold put_stick. destruct (is_left_side side); reflexivity. Qed.

(** [cmd_stick] with a valid side is [_set_stick] on the stick of that side. *)
Lemma cmd_stick_valid (side direction : string) (value : option string) (e : Env) :
  valid_side side = true ->
  cmd_stick side direction value e
    = (put_stick side (fst (_set_stick direction value (stick_of side e))) e,
       snd (_set_stick direction value (stick_of side e))).
Proof.
  unfold valid_side, cmd_stick, put_stick, stick_of, is_left_side, is_right_side.
  intros Hside.
  destruct ((side =? "l") || (side =? "left")); [rewrite zoom_run; reflexivity |].
  simpl in Hside. rewrite Hside, zoom_run. reflexivity.
Qed.

Lemma cmd_stick_invalid (side direction : string) (value : option string) (e : Env) :
  valid_side side = false -> cmd_stick side direction value e = (e, Raise side_error).
Proof.
  unfold valid_side, cmd_stick, is_left_side, is_right_side. intros Hside.
  apply orb_false_elim in Hside as [Hl Hr]. rewrite Hl, Hr. reflexivity.
Qed.

Lemma set_stick_horizontal (direction : string) (value : option string) (s : StickState) :
  is_horizontal direction = true ->
  _set_stick direction value s =
    match requested_value value with
    | Ok h => (with_h h s, Ok (stick_msg (with_h h s)))
    | Raise err => (s, Raise err)
    end.
Proof.
  unfold is_horizontal. intros H. apply orb_prop in H as [H | H];
    apply String.eqb_eq in H; subst direction;
    unfold _set_stick, bind, requested_value, set_h; simpl;
    destruct (stick_value value) as [val | err]; try reflexivity;
    destruct (axis_value val); reflexivity.
Qed.

Lemma set_stick_vertical (direction : string) (value : option string) (s : StickState) :
  is_vertical direction = true ->
  _set_stick direction value s =
    match requested_value value with
    | Ok v => (with_v v s, Ok (stick_msg (with_v v s)))
    | Raise err => (s, Raise err)
    end.
Proof.
  unfold is_vertical. intros H. apply orb_prop in H as [H | H];
    apply String.eqb_eq in H; subst direction;
    unfold _set_stick, bind, requested_value, set_v; simpl;
    destruct (stick_value value) as [val | err]; try reflexivity;
    destruct (axis_value val); reflexivity.
Qed.

Lemma set_stick_preset (direction : string) (value : option string) (s : StickState) (p : Preset) :
  preset_of direction = Some p ->
  _set_stick direction value s = (set_preset p s, Ok (stick_msg (set_preset p s))).
Proof.
  unfold preset_of, _set_stick, bind.
  destruct (direction =? "center"); [intros [= <-]; reflexivity |].
  destruct (direction =? "up"); [intros [= <-]; reflexivity |].
  destruct (direction =? "down"); [intros [= <-]; reflexivity |].
  destruct (direction =? "left"); [intros [= <-]; reflexivity |].
  destruct (direction =? "right"); [intros [= <-]; reflexivity | discriminate].
Qed.

Lemma set_stick_unexpected (direction : string) (value : option string) (s : StickState) :
  preset_of direction = None ->
  is_horizontal direction = false ->
  is_vertical direction = false ->
  _set_stick direction value s
    = (s, Raise (ValueError ("Unexpected argument " +:+ dq +:+ direction +:+ dq))).
Proof.
  unfold preset_of, is_horizontal, is_vertical, _set_stick, bind.
  intros Hp Hh Hv. rewrite Hh, Hv.
  destruct (direction =? "center"); [discriminate |].
  destruct (direction =? "up"); [discriminate |].
  destruct (direction =? "down"); [discriminate |].
  destruct (direction =? "left"); [discriminate |].
  destruct (direction =? "right"); [discriminate | reflexivity].
Qed.

(** Every direction token falls in exactly one of the four classes that
    [_set_stick] tells apart; running it a second time on the stick it left
    changes nothing. *)
Lemma set_stick_idempotent (direction : string) (value : option string) (s : StickState) :
  _set_stick direction value (fst (_set_stick direction value s))
    = _set_stick direction value s.
Proof.
  destruct (preset_of direction) as [p |] eqn:Hp.
  { rewrite !(set_stick_preset direction value _ p Hp). reflexivity. }
  destruct (is_horizontal direction) eqn:Hh.
  { rewrite !(set_stick_horizontal direction value _ Hh).
    destruct (requested_value value); reflexivity. }
  destruct (is_vertical direction) eqn:Hv.
  { rewrite !(set_stick_vertical direction value _ Hv).
    destruct (requested_value value); reflexivity. }
  rewrite !(set_stick_unexpected direction value _ Hp Hh Hv). reflexivity.
Qed.

End Stick.

Section StickCommand.
Context `{Ext : Externals}.

Lemma requested_integer (text : string) (val : Z) :
  py_int text = Some val -> requested_value (Some text) = axis_value val.
Proof. intros H. unfold requested_value, stick_value. rewrite H. reflexivity. Qed.

Lemma axis_value_in_range (val : Z) : axis_in_range val = true -> axis_value val = Ok val.
Proof. intros H. unfold axis_value. rewrite H. reflexivity. Qed.

(** C4. [cmd_stick] with a side token other than [l], [left], [r], [right]
    raises the side error whatever the direction, with the state untouched.
    With a valid side: an [h], [horizontal], [v] or [vertical] direction
    raises "Missing value" without a value and "Unexpected stick value" for a
    value that [int] rejects, and otherwise hands the integer to the setter of
    that component: the outcome of the command is the setter's, and an
    integer of the axis range is stored in that component of the selected
    stick as it is. A direction that is neither of those nor a preset raises
    "Unexpected argument". A failure leaves the state as it was. *)
Theorem cmd_stick_validates
  (side direction : string) (value : option string) (e : Env) :
  (valid_side side = false ->
     cmd_stick side direction value e = (e, Raise side_error))
  /\ (valid_side side = true ->
        (is_horizontal direction || is_vertical direction = true ->
           (value = None ->
              cmd_stick side direction value e = (e, Raise (ValueError "Missing value")))
           /\ (forall text, value = Some text -> py_int text = None ->
                 cmd_stick side direction value e
                   = (e, Raise (ValueError ("Unexpected stick value " +:+ dq +:+ text +:+ dq)))))
        /\ (forall text val, value = Some text -> py_int text = Some val ->
              (is_horizontal direction = true ->
                 cmd_stick side direction value e
                   = match set_h val (stick_of side e) with
                     | (s', Ok _) => (put_stick side s' e, Ok (stick_msg s'))
                     | (_, Raise err) => (e, Raise err)
                     end
                 /\ (axis_in_range val = true ->
                       cmd_stick side direction value e
                         = (put_stick side (with_h val (stick_of side e)) e,
                            Ok (stick_msg (with_h val (stick_of side e))))))
              /\ (is_vertical direction = true ->
                    cmd_stick side direction value e
                      = match set_v val (stick_of side e) with
                        | (s', Ok _) => (put_stick side s' e, Ok (stick_msg s'))
                        | (_, Raise err) => (e, Raise err)
                        end
                    /\ (axis_in_range val = true ->
                          cmd_stick side direction value e
                            = (put_stick side (with_v val (stick_of side e)) e,
                               Ok (stick_msg (with_v val (stick_of side e)))))))
        /\ (preset_of direction = None ->
            is_horizontal direction = false ->
            is_vertical direction = false ->
            cmd_stick side direction value e
              = (e, Raise (ValueError ("Unexpected argument " +:+ dq +:+ direction +:+ dq))))).
Proof.
  split; [apply cmd_stick_invalid |].
  intros Hside. rewrite (cmd_stick_valid side direction value e Hside).
  split; [| split].
  - intros Haxis.
    assert (Hfail : forall err, requested_value value = Raise err ->
              (put_stick side (fst (_set_stick direction value (stick_of side e))) e,
               snd (_set_stick direction value (stick_of side e))) = (e, Raise err)).
    { intros err Hval. apply orb_prop in Haxis as [Hh | Hv].
      - rewrite (set_stick_horizontal direction value _ Hh), Hval. simpl.
        rewrite put_stick_same. reflexivity.
      - rewrite (set_stick_vertical direction value _ Hv), Hval. simpl.
        rewrite put_stick_same. reflexivity. }
    split.
    + intros ->. apply Hfail. reflexivity.
    + intros text -> Hint. apply Hfail. unfold requested_value, stick_value.
      rewrite Hint. reflexivity.
  - intros text val -> Hint.
    pose proof (requested_integer text val Hint) as Hval.
    split; intros Hd.
    + rewrite (set_stick_horizontal direction _ _ Hd), Hval. split.
      * unfold set_h. destruct (axis_value val); simpl; [reflexivity |].
        rewrite put_stick_same. reflexivity.
      * intros Hin. rewrite (axis_value_in_range val Hin). reflexivity.
    + rewrite (set_stick_vertical direction _ _ Hd), Hval. split.
      * unfold set_v. destruct (axis_value val); simpl; [reflexivity |].
        rewrite put_stick_same. reflexivity.
      * intros Hin. rewrite (axis_value_in_range val Hin). reflexivity.
  - intros Hp Hh Hv. rewrite (set_stick_unexpected direction value _ Hp Hh Hv). simpl.
    rewrite put_stick_same. reflexivity.
Qed.

(** C8. Setting the horizontal component directly on a stick leaves the
    vertical component of that stick, and the other stick, as they were, for
    every integer; an integer of the axis range is then the horizontal
    component. A preset puts the stick on the preset's defined pair. And any
    stick command run a second time gives the state and the result of the
    first run. *)
Theorem stick_set_is_local_and_idempotent
  (side direction : string) (value : option string) (e : Env) :
  (forall text val,
     valid_side side = true -> is_horizontal direction = true ->
     value = Some text -> py_int text = Some val ->
     let e1 := fst (cmd_stick side direction value e) in
     get_v (stick_of side e1) = get_v (stick_of side e)
     /\ other_stick side e1 = other_stick side e
     /\ (axis_in_range val = true -> get_h (stick_of side e1) = val))
  /\ (forall p,
        valid_side side = true -> preset_of direction = Some p ->
        let e1 := fst (cmd_stick side direction value e) in
        (get_h (stick_of side e1), get_v (stick_of side e1)) = preset_pos (stick_of side e) p)
  /\ cmd_stick side direction value (fst (cmd_stick side direction value e))
     = cmd_stick side direction value e.
Proof.
  split; [| split].
  - intros text val Hside Hd -> Hint. cbv zeta.
    rewrite (cmd_stick_valid side direction _ e Hside).
    rewrite (set_stick_horizontal direction _ _ Hd), (requested_integer text val Hint).
    split; [| split].
    + destruct (axis_value val); simpl; rewrite stick_of_put; reflexivity.
    + destruct (axis_value val); simpl; rewrite other_stick_put; reflexivity.
    + intros Hin. rewrite (axis_value_in_range val Hin). simpl.
      rewrite stick_of_put. reflexivity.
  - intros p Hside Hp. cbv zeta.
    rewrite (cmd_stick_valid side direction _ e Hside).
    rewrite (set_stick_preset direction value _ p Hp). simpl.
    rewrite stick_of_put. unfold get_h, get_v, set_preset. simpl.
    destruct (preset_pos (stick_of side e) p); reflexivity.
  - destruct (valid_side side) eqn:Hside.
    + rewrite !(cmd_stick_valid side direction value _ Hside). simpl.
      rewrite stick_of_put, set_stick_idempotent, put_stick_twice. reflexivity.
    + rewrite !(cmd_stick_invalid side direction value _ Hside). reflexivity.
Qed.

End StickCommand.

Lemma cmd_stick_validates_witness :
  let e := Sample.env0 PRO_CONTROLLER true in
  valid_side "x" = false
  /\ cmd_stick "x" "up" None e = (e, Raise side_error)
  /\ valid_side "l" = true
  /\ cmd_stick "l" "h" None e = (e, Raise (ValueError "Missing value"))
  /\ py_int "abc" = None
  /\ cmd_stick "l" "h" (Some "abc") e
     = (e, Raise (ValueError ("Unexpected stick value " +:+ dq +:+ "abc" +:+ dq)))
  /\ py_int "500" = Some 500
  /\ axis_in_range 500 = true
  /\ snd (cmd_stick "r" "h" (Some "500") e) = Ok "StickState was set to (500, 200)."
  /\ py_int "99999" = Some 99999
  /\ axis_in_range 99999 = false
  /\ cmd_stick "r" "h" (Some "99999") e
     = (e, Raise (ValueError "Stick values must be in [0,4096)"))
  /\ cmd_stick "l" "diagonal" None e
     = (e, Raise (ValueError ("Unexpected argument " +:+ dq +:+ "diagonal" +:+ dq))).
Proof.
  cbv zeta. set (e := Sample.env0 PRO_CONTROLLER true).
  destruct (cmd_stick_validates "x" "up" None e) as (Hx & _).
  destruct (cmd_stick_validates "l" "h" None e) as (_ & Hl).
  destruct (Hl eq_refl) as (Hmiss & _ & _). destruct (Hmiss eq_refl) as (Hnone & _).
  destruct (cmd_stick_validates "l" "h" (Some "abc") e) as (_ & Habc).
  destruct (Habc eq_refl) as (Hbad & _ & _). destruct (Hbad eq_refl) as (_ & Htext).
  destruct (cmd_stick_validates "r" "h" (Some "500") e) as (_ & Hr).
  destruct (Hr eq_refl) as (_ & Hset & _).
  destruct (Hset "500" 500 eq_refl eq_refl) as (Hh & _).
  destruct (Hh eq_refl) as (_ & Hstored).
  destruct (cmd_stick_validates "r" "h" (Some "99999") e) as (_ & Hbig).
  destruct (Hbig eq_refl) as (_ & Hout & _).
  destruct (Hout "99999" 99999 eq_refl eq_refl) as (Hh' & _).
  destruct (Hh' eq_refl) as (Hsetter & _).
  destruct (cmd_stick_validates "l" "diagonal" None e) as (_ & Hdiag).
  destruct (Hdiag eq_refl) as (_ & _ & Hother).
  split; [reflexivity |]. split; [exact (Hx eq_refl) |].
  split; [reflexivity |]. split; [exact (Hnone eq_refl) |].
  split; [reflexivity |]. split; [exact (Htext "abc" eq_refl eq_refl) |].
  split; [reflexivity |]. split; [reflexivity |].
  split; [rewrite (Hstored eq_refl); reflexivity |].
  split; [reflexivity |]. split; [reflexivity |].
  split; [rewrite Hsetter; reflexivity |].
  exact (Hother eq_refl eq_refl eq_refl).
Defined.

Lemma stick_set_is_local_and_idempotent_witness :
  let e := Sample.env0 PRO_CONTROLLER true in
  let e1 := fst (cmd_stick "r" "h" (Some "500") e) in
  valid_side "r" = true
  /\ is_horizontal "h" = true
  /\ py_int "500" = Some 500
  /\ axis_in_range 500 = true
  /\ get_h (stick_of "r" e1) = 500
  /\ get_v (stick_of "r" e1) = 200
  /\ other_stick "r" e1 = Sample.stick0
  /\ cmd_stick "r" "h" (Some "500") e1 = cmd_stick "r" "h" (Some "500") e
  /\ (get_h (stick_of "l" (fst (cmd_stick "l" "center" None e))),
      get_v (stick_of "l" (fst (cmd_stick "l" "center" None e)))) = (2048, 2048).
Proof.
  cbv zeta. set (e := Sample.env0 PRO_CONTROLLER true).
  destruct (stick_set_is_local_and_idempotent "r" "h" (Some "500") e) as (Hset & _ & Hidem).
  destruct (Hset "500" 500 eq_refl eq_refl eq_refl eq_refl) as (Hv & Ho & Hh).
  destruct (stick_set_is_local_and_idempotent "l" "center" None e) as (_ & Hpre & _).
  specialize (Hpre Center eq_refl eq_refl).
  split; [reflexivity |]. split; [reflexivity |]. split; [reflexivity |].
  split; [reflexivity |].
  split; [exact (Hh eq_refl) |]. split; [exact Hv |]. split; [exact Ho |].
  split; [exact Hidem | exact Hpre].
Defined.

Section Buttons.
Context `{Ext : Externals}.

Lemma ensure_valid_button_rejects (cs : ControllerState) (buttons : list string) :
  (exists button, button ∈ buttons /\ button ∉ available_buttons cs) ->
  exists bad, bad ∈ buttons /\ (bad ∉ available_buttons cs)
              /\ ensure_valid_button cs buttons = Raise (button_error cs bad).
Proof.
  induction buttons as [| b rest IH]; intros (button & Hin & Hbad).
  - apply elem_of_nil in Hin. contradiction.
  - simpl. case_bool_decide as Hb.
    + apply elem_of_cons in Hin as [-> | Hin]; [contradiction |].
      destruct IH as (bad & Hbin & Hbbad & Hres); [eauto |].
      exists bad. split; [apply elem_of_cons; auto | auto].
    + exists b. split; [apply elem_of_cons; auto | auto].
Qed.

Lemma ensure_valid_button_accepts (cs : ControllerState) (buttons : list string) :
  (forall button, button ∈ buttons -> button ∈ available_buttons cs) ->
  ensure_valid_button cs buttons = Ok tt.
Proof.
  induction buttons as [| b rest IH]; intros Hall; [reflexivity |].
  simpl. rewrite bool_decide_eq_true_2 by (apply Hall, elem_of_cons; auto).
  apply IH. intros button Hin. apply Hall, elem_of_cons. auto.
Qed.

(** C5. When some button of the argument list is not among the advertised
    buttons, [hold] and [release] both raise the [ValueError] naming the first
    such button, and the state they leave is the state they found: no button
    is pressed or released, nothing is logged and the link is not used. *)
Theorem hold_release_reject_unknown_button
  (args : list string) (button : string) (e : Env) :
  button ∈ args ->
  button ∉ available_buttons (state e) ->
  exists bad,
    bad ∈ args /\ (bad ∉ available_buttons (state e))
    /\ hold args e = (e, Raise (button_error (state e) bad))
    /\ release args e = (e, Raise (button_error (state e) bad))
    /\ held (state (fst (hold args e))) = held (state e)
    /\ held (state (fst (release args e))) = held (state e).
Proof.
  intros Hin Hbad.
  destruct (ensure_valid_button_rejects (state e) args) as (bad & Hbin & Hbbad & Hres);
    [eauto |].
  exists bad. split; [exact Hbin |]. split; [exact Hbbad |].
  assert (Hhold : hold args e = (e, Raise (button_error (state e) bad))).
  { destruct args as [| a rest]; [apply elem_of_nil in Hin; contradiction |].
    unfold hold, bind, check_buttons. rewrite Hres. reflexivity. }
  assert (Hrel : release args e = (e, Raise (button_error (state e) bad))).
  { destruct args as [| a rest]; [apply elem_of_nil in Hin; contradiction |].
    unfold release, bind, check_buttons. rewrite Hres. reflexivity. }
  rewrite Hhold, Hrel. auto.
Qed.

End Buttons.

Lemma hold_release_reject_unknown_button_witness :
  let e := Sample.env0 PRO_CONTROLLER true in
  "q" ∈ ["a"; "q"; "b"]
  /\ ("q" ∉ available_buttons (state e))
  /\ (exists bad,
        hold ["a"; "q"; "b"] e = (e, Raise (button_error (state e) bad))
        /\ release ["a"; "q"; "b"] e = (e, Raise (button_error (state e) bad)))
  /\ hold ["a"; "q"; "b"] e
     = (e, Raise (ValueError "Button q does not exist on PRO_CONTROLLER")).
Proof.
  cbv zeta. set (e := Sample.env0 PRO_CONTROLLER true).
  assert (Hin : "q" ∈ ["a"; "q"; "b"]) by compute_done.
  assert (Hbad : "q" ∉ available_buttons (state e)) by compute_done.
  destruct (hold_release_reject_unknown_button ["a"; "q"; "b"] "q" e Hin Hbad)
    as (bad & _ & _ & Hhold & Hrel & _).
  split; [exact Hin |]. split; [exact Hbad |].
  split; [exists bad; auto |]. vm_compute; reflexivity.
Defined.

Section Nfc.
Context `{Ext : Externals}.

Lemma nfc_checks_passed (file_path : string) (sec : delay) (e : Env) :
  controller (state e) <> JOYCON_L ->
  file_path <> EmptyString ->
  nfc file_path sec e = (clear_nfc (Seconds 0);; load_nfc file_path sec) e.
Proof.
  intros Hc Hp. unfold nfc at 1. unfold bind at 1. unfold get.
  rewrite bool_decide_eq_false_2 by exact Hc.
  apply String.eqb_neq in Hp. rewrite Hp. reflexivity.
Qed.

(** C3. [nfc] tests the controller variant first: on a left Joy-Con it
    raises whatever the path is, the empty one included. It tests the path
    second: an empty path raises. Both leave the state untouched. Otherwise,
    for a readable file, the effects come in this order: the zero-delay clear
    of the payload, the opening and reading of the file, the setting of the
    payload to the file's content, the scheduling of the task that clears
    after [sec]; the payload then is the content, and running the scheduled
    task sleeps [sec] seconds and leaves no payload. *)
Theorem nfc_runs_its_steps_in_order (file_path : string) (sec : delay) (e : Env) :
  (controller (state e) = JOYCON_L ->
     nfc file_path sec e = (e, Raise (ValueError "NFC content cannot be set for JOYCON_L"))
     /\ nfc EmptyString sec e = (e, Raise (ValueError "NFC content cannot be set for JOYCON_L")))
  /\ (controller (state e) <> JOYCON_L -> file_path = EmptyString ->
        nfc file_path sec e
          = (e, Raise (ValueError (dq +:+ "nfc" +:+ dq
                         +:+ " command requires file path to an nfc dump as argument!"))))
  /\ (forall content,
        controller (state e) <> JOYCON_L -> file_path <> EmptyString ->
        files e file_path = Content content ->
        let e1 := fst (nfc file_path sec e) in
        snd (nfc file_path sec e) = Ok tt
        /\ trace e1 = trace e ++ [EvSleep 0; EvLog "Clearing NFC content"; EvSetNfc None;
                                  EvOpen file_path; EvRead file_path;
                                  EvLog ("Setting NFC content: " +:+ file_path);
                                  EvSetNfc (Some content); EvSpawn (ClearNfc sec);
                                  EvClose file_path]
        /\ nfc_content (state e1) = Some content
        /\ scheduled e1 = scheduled e ++ [ClearNfc sec]
        /\ (forall n, sec = Seconds n ->
              snd (run_task (ClearNfc sec) e1) = Ok tt
              /\ trace (fst (run_task (ClearNfc sec) e1))
                 = trace e1 ++ [EvSleep n; EvLog "Clearing NFC content"; EvSetNfc None]
              /\ nfc_content (state (fst (run_task (ClearNfc sec) e1))) = None)).
Proof.
  split; [| split].
  - intros Hc. unfold nfc, bind, get. rewrite bool_decide_eq_true_2 by exact Hc. auto.
  - intros Hc ->. unfold nfc, bind, get. rewrite bool_decide_eq_false_2 by exact Hc.
    reflexivity.
  - intros content Hc Hp Hfile. cbv zeta.
    rewrite (nfc_checks_passed file_path sec e Hc Hp).
    unfold bind, clear_nfc, sleep, log_info, set_nfc, modify, load_nfc, bind. simpl.
    rewrite Hfile. simpl.
    split; [reflexivity |].
    split; [repeat rewrite <- app_assoc; reflexivity |].
    split; [reflexivity |]. split; [reflexivity |].
    intros n ->. simpl. split; [reflexivity |].
    split; [repeat rewrite <- app_assoc; reflexivity | reflexivity].
Qed.

(** C10. On a variant that carries tag data and with a non-empty path, when
    the file cannot be opened or cannot be read, [nfc] raises the file error,
    and the payload that was loaded before the call is gone: the clear ran
    first, nothing set a payload after it, and no clear was scheduled. *)
Theorem nfc_failure_keeps_payload_cleared (file_path : string) (sec : delay) (e : Env) :
  controller (state e) <> JOYCON_L ->
  file_path <> EmptyString ->
  files e file_path = NoFile \/ files e file_path = Unreadable ->
  snd (nfc file_path sec e) = Raise (OSError file_path)
  /\ nfc_content (state (fst (nfc file_path sec e))) = None
  /\ scheduled (fst (nfc file_path sec e)) = scheduled e
  /\ exists evs,
       trace (fst (nfc file_path sec e))
         = trace e ++ [EvSleep 0; EvLog "Clearing NFC content"; EvSetNfc None] ++ evs
       /\ forall content, EvSetNfc content ∉ evs.
Proof.
  intros Hc Hp Hfile.
  rewrite (nfc_checks_passed file_path sec e Hc Hp).
  unfold bind, clear_nfc, sleep, log_info, set_nfc, modify, load_nfc, bind. simpl.
  destruct Hfile as [Hfile | Hfile]; rewrite Hfile; simpl.
  - repeat (split; [reflexivity |]). exists [].
    split; [repeat rewrite <- app_assoc; reflexivity |].
    intros content H. apply elem_of_nil in H. exact H.
  - repeat (split; [reflexivity |]).
    exists [EvOpen file_path; EvRead file_path; EvClose file_path].
    split; [repeat rewrite <- app_assoc; reflexivity |].
    intros content H. repeat (apply elem_of_cons in H as [H | H]; [discriminate |]).
    apply elem_of_nil in H. exact H.
Qed.

End Nfc.

Lemma nfc_runs_its_steps_in_order_witness :
  let e := Sample.env0 PRO_CONTROLLER true in
  let e1 := fst (nfc "/tmp/amiibo.bin" (Seconds 3) e) in
  controller (state e) <> JOYCON_L
  /\ "/tmp/amiibo.bin" <> EmptyString
  /\ files e "/tmp/amiibo.bin" = Content Sample.amiibo
  /\ controller (state (Sample.env0 JOYCON_L true)) = JOYCON_L
  /\ nfc "/tmp/amiibo.bin" (Seconds 3) (Sample.env0 JOYCON_L true)
     = (Sample.env0 JOYCON_L true, Raise (ValueError "NFC content cannot be set for JOYCON_L"))
  /\ snd (nfc EmptyString (Seconds 3) e)
     = Raise (ValueError (dq +:+ "nfc" +:+ dq
                +:+ " command requires file path to an nfc dump as argument!"))
  /\ nfc_content (state e) = Some [x2a]
  /\ nfc_content (state e1) = Some Sample.amiibo
  /\ scheduled e1 = [ClearNfc (Seconds 3)]
  /\ nfc_content (state (fst (run_task (ClearNfc (Seconds 3)) e1))) = None.
Proof.
  cbv zeta. set (e := Sample.env0 PRO_CONTROLLER true).
  assert (Hc : controller (state e) <> JOYCON_L) by discriminate.
  assert (Hp : "/tmp/amiibo.bin" <> EmptyString) by discriminate.
  assert (Hf : files e "/tmp/amiibo.bin" = Content Sample.amiibo) by reflexivity.
  destruct (nfc_runs_its_steps_in_order "/tmp/amiibo.bin" (Seconds 3) e) as (_ & _ & Hload).
  destruct (Hload Sample.amiibo Hc Hp Hf) as (_ & _ & Hcontent & Hsched & Hlater).
  destruct (Hlater 3 eq_refl) as (_ & _ & Hcleared).
  destruct (nfc_runs_its_steps_in_order "/tmp/amiibo.bin" (Seconds 3) (Sample.env0 JOYCON_L true))
    as (Hleft & _).
  destruct (Hleft eq_refl) as (Hleft1 & _).
  destruct (nfc_runs_its_steps_in_order EmptyString (Seconds 3) e) as (_ & Hempty & _).
  split; [exact Hc |]. split; [exact Hp |]. split; [exact Hf |].
  split; [reflexivity |]. split; [exact Hleft1 |].
  split; [rewrite (Hempty Hc eq_refl); reflexivity |].
  split; [reflexivity |]. split; [exact Hcontent |].
  split; [exact Hsched | exact Hcleared].
Defined.

Lemma nfc_failure_keeps_payload_cleared_witness :
  let e := Sample.env0 PRO_CONTROLLER true in
  controller (state e) <> JOYCON_L
  /\ "/tmp/nope" <> EmptyString
  /\ files e "/tmp/nope" = NoFile
  /\ files e "/tmp/locked.bin" = Unreadable
  /\ nfc_content (state e) = Some [x2a]
  /\ snd (nfc "/tmp/nope" (Seconds 3) e) = Raise (OSError "/tmp/nope")
  /\ nfc_content (state (fst (nfc "/tmp/nope" (Seconds 3) e))) = None
  /\ snd (nfc "/tmp/locked.bin" (Seconds 3) e) = Raise (OSError "/tmp/locked.bin")
  /\ nfc_content (state (fst (nfc "/tmp/locked.bin" (Seconds 3) e))) = None.
Proof.
  cbv zeta. set (e := Sample.env0 PRO_CONTROLLER true).
  assert (Hc : controller (state e) <> JOYCON_L) by discriminate.
  assert (Hp : "/tmp/nope" <> EmptyString) by discriminate.
  assert (Hp' : "/tmp/locked.bin" <> EmptyString) by discriminate.
  destruct (nfc_failure_keeps_payload_cleared "/tmp/nope" (Seconds 3) e Hc Hp
              (or_introl eq_refl)) as (Hraise & Hnone & _).
  destruct (nfc_failure_keeps_payload_cleared "/tmp/locked.bin" (Seconds 3) e Hc Hp'
              (or_intror eq_refl)) as (Hraise' & Hnone' & _).
  split; [exact Hc |]. split; [exact Hp |]. split; [reflexivity |]. split; [reflexivity |].
  split; [reflexivity |]. split; [exact Hraise |]. split; [exact Hnone |].
  split; [exact Hraise' | exact Hnone'].
Defined.

Lemma handle_line_contains_handler_failures_witness :
  let w := Sample.world0 PRO_CONTROLLER false in
  let line := "btn:q:true" in
  line <> EmptyString
  /\ parse_line line = Ok ("hold", ["q"])
  /\ resolve "hold" w = Some hold
  /\ hold ["q"] (controller_state w)
     = (controller_state w, Raise (ValueError "Button q does not exist on PRO_CONTROLLER"))
  /\ (exists w1,
        dispatch "hold" ["q"] w = (w1, Ok tt)
        /\ stdout w1 = [PrintExn (ValueError "Button q does not exist on PRO_CONTROLLER")]
        /\ handle_line line w = flush w1)
  /\ snd (handle_line line w) = Raise NotConnectedError
  /\ trace (controller_state (fst (handle_line line w)))
     = [EvSend; EvLog "Connection was lost."]
  /\ decode_utf8 (line +:+ String "010" EmptyString)
     = Some (line +:+ String "010" EmptyString)
  /\ snd (handle_client [Chunk (line +:+ String "010" EmptyString); Chunk "btn:a:true"] w)
     = NotConnectedError.
Proof.
  cbv zeta. set (w := Sample.world0 PRO_CONTROLLER false).
  assert (Hne : "btn:q:true" <> EmptyString) by discriminate.
  assert (Hparse : parse_line "btn:q:true" = Ok ("hold", ["q"])) by reflexivity.
  assert (Hres : resolve "hold" w = Some hold) by (vm_compute; reflexivity).
  assert (Hhold : hold ["q"] (controller_state w)
     = (controller_state w, Raise (ValueError "Button q does not exist on PRO_CONTROLLER")))
    by (vm_compute; reflexivity).
  destruct (handle_line_contains_handler_failures "btn:q:true" "hold" ["q"] w Hne Hparse)
    as (w1 & Hd & Hcaught & Hline & _ & _ & Hdown).
  specialize (Hcaught hold _ _ Hres Hhold).
  split; [exact Hne |]. split; [exact Hparse |]. split; [exact Hres |].
  split; [exact Hhold |].
  split.
  { exists w1. split; [exact Hd |]. split; [rewrite Hcaught; reflexivity | exact Hline]. }
  assert (Hlink : link (controller_state w1) (link_ops (controller_state w1)) = false)
    by (rewrite Hcaught; reflexivity).
  destruct (Hdown Hlink) as (Hraise & Hloop).
  split; [exact Hraise |].
  split; [vm_compute; reflexivity |].
  split; [reflexivity |].
  rewrite (Hloop ("btn:q:true" +:+ String "010" EmptyString)
             ("btn:q:true" +:+ String "010" EmptyString) [Chunk "btn:a:true"]
             eq_refl eq_refl).
  reflexivity.
Defined.

Lemma dispatch_follows_precedence_witness :
  let w := Sample.world0 PRO_CONTROLLER true in
  let shadowed := with_commands (<["stick" := Sample.failing]> (commands w)) w in
  "hold" <> "stick"
  /\ commands shadowed !! "stick" = Some Sample.failing
  /\ resolve "stick" shadowed = Some call_cmd_stick
  /\ stdout (fst (dispatch "stick" ["l"; "up"] shadowed))
     = [PrintStr "StickState was set to (2048, 3548)."]
  /\ resolve "hold" w = commands w !! "hold"
  /\ resolve "help" w = None
  /\ stdout (fst (dispatch "help" [] w))
     = [PrintStr "command help not found, call help for help."].
Proof.
  cbv zeta. set (w := Sample.world0 PRO_CONTROLLER true).
  assert (Hne : "hold" <> "stick") by discriminate.
  destruct (dispatch_follows_precedence "hold" [] w) as (_ & _ & Hstick & Hreg & _).
  destruct (dispatch_follows_precedence "help" [] w) as (Hd & _).
  split; [exact Hne |].
  split; [apply lookup_insert_eq |].
  split; [exact (Hstick Sample.failing) |].
  split; [vm_compute; reflexivity |].
  split; [exact (Hreg Hne) |].
  split; [vm_compute; reflexivity |].
  rewrite Hd. vm_compute; reflexivity.
Defined.

(** * Further properties of the line protocol *)

Section LineProtocol.
Context `{Ext : Externals}.

Lemma split_first_field (s a b : string) (rest : list string) :
  PyStr.split ":" s = a :: b :: rest ->
  exists s', s = a +:+ ":" +:+ s' /\ PyStr.split ":" s' = b :: rest /\ colon_free a = true.
Proof.
  revert a. induction s as [| c r IH]; intros a Hs; simpl in Hs; [discriminate |].
  destruct (Ascii.eqb c ":") eqn:Hc.
  - apply Ascii.eqb_eq in Hc. subst c. injection Hs as <- Hr.
    exists r. auto.
  - destruct (PyStr.split ":" r) as [| w ws] eqn:Hr; [discriminate |].
    injection Hs as <- ->.
    destruct (IH w eq_refl) as (s' & -> & Hs' & Hw).
    exists s'. simpl. rewrite Hc, Hw. auto.
Qed.

Lemma split_max_nfc_line (path : string) :
  PyStr.split_max ":" 1 ("nfc:" +:+ path) = ["nfc"; path].
Proof. destruct path; reflexivity. Qed.

(** X1. An [nfc:] line keeps the whole rest of the line as the path: only
    the first colon cuts, so a path with colons, or an empty one, reaches the
    handler as it was sent. *)
Theorem parse_nfc_keeps_path (path : string) :
  parse_line ("nfc:" +:+ path) = Ok ("nfc", [path]).
Proof.
  unfold parse_line.
  change (PyStr.startswith "btn:" ("nfc:" +:+ path)) with false.
  change (PyStr.startswith "stick:" ("nfc:" +:+ path)) with false.
  cbv iota. rewrite startswith_app, split_max_nfc_line. reflexivity.
Qed.

Lemma parse_btn_true (button : string) :
  colon_free button = true ->
  parse_line ("btn:" +:+ button +:+ ":true") = Ok ("hold", [button]).
Proof.
  intros Hb. unfold parse_line. rewrite startswith_app.
  change ("btn:" +:+ button +:+ ":true") with ("btn" +:+ ":" +:+ button +:+ ":" +:+ "true").
  rewrite (split_field "btn") by reflexivity.
  rewrite (split_field button) by exact Hb. reflexivity.
Qed.

Lemma parse_stick_true (side direction : string) :
  colon_free side = true -> colon_free direction = true ->
  parse_line ("stick:" +:+ side +:+ ":" +:+ direction +:+ ":true")
    = Ok ("stick", [side; direction]).
Proof.
  intros Hs Hd. unfold parse_line. rewrite startswith_app.
  change (PyStr.startswith "btn:" ("stick:" +:+ side +:+ ":" +:+ direction +:+ ":true"))
    with false.
  cbv iota.
  change ("stick:" +:+ side +:+ ":" +:+ direction +:+ ":true")
    with ("stick" +:+ ":" +:+ side +:+ ":" +:+ direction +:+ ":" +:+ "true").
  rewrite (split_field "stick") by reflexivity.
  rewrite (split_field side) by exact Hs.
  rewrite (split_field direction) by exact Hd. reflexivity.
Qed.

(** X2. Every line of the grammar is parsed without error into one of the
    four commands, never into the empty command: a [btn] line gives [hold] or
    [release] with the button, a [stick] line gives [stick] with the side and
    the direction or [center], an [nfc] line gives [nfc] with one path. *)
Theorem grammar_lines_parse (line : string) :
  in_grammar line = true ->
  (exists button, parse_line line = Ok ("hold", [button])
                  \/ parse_line line = Ok ("release", [button]))
  \/ (exists side direction, parse_line line = Ok ("stick", [side; direction]))
  \/ (exists path, parse_line line = Ok ("nfc", [path])).
Proof.
  unfold in_grammar. intros Hg.
  destruct (PyStr.split ":" line) as [| a [| b rest]] eqn:Hsplit; try discriminate.
  { repeat (destruct a as [| [[] [] [] [] [] [] [] []] a]; try discriminate). }
  destruct (split_first_field line a b rest Hsplit) as (s' & -> & Hs' & Ha).
  destruct (string_dec a "btn") as [-> | Hbtn].
  - destruct rest as [| pressed [| x rest]]; try discriminate.
    left. exists b. unfold parse_line.
    change ("btn" +:+ ":" +:+ s') with ("btn:" +:+ s'). rewrite startswith_app.
    change ("btn:" +:+ s') with ("btn" +:+ ":" +:+ s'). rewrite Hsplit.
    destruct (pressed =? "true"); auto.
  - destruct (string_dec a "stick") as [-> | Hstick].
    + destruct rest as [| direction [| pressed [| x rest]]]; try discriminate.
      right. left. exists b. unfold parse_line.
      change (PyStr.startswith "btn:" ("stick" +:+ ":" +:+ s')) with false. cbv iota.
      change ("stick" +:+ ":" +:+ s') with ("stick:" +:+ s'). rewrite startswith_app.
      change ("stick:" +:+ s') with ("stick" +:+ ":" +:+ s'). rewrite Hsplit.
      destruct (pressed =? "true"); eauto.
    + destruct (string_dec a "nfc") as [-> | Hnfc].
      * right. right. exists s'.
        change ("nfc" +:+ ":" +:+ s') with ("nfc:" +:+ s'). apply parse_nfc_keeps_path.
      * exfalso. clear - Hg Hbtn Hstick Hnfc.
        repeat (destruct a as [| [[] [] [] [] [] [] [] []] a]; try discriminate;
                try congruence).
Qed.

End LineProtocol.

Section LineDispatch.
Context `{Ext : Externals}.

Lemma handle_line_unpack_error (line : string) (w : World) (expected got : nat) :
  parse_line line = Raise (UnpackError expected got) ->
  handle_line line w = (w, Raise (UnpackError expected got)).
Proof.
  intros Hp. unfold handle_line. destruct line; [discriminate |]. rewrite Hp. reflexivity.
Qed.

(** X3. A line that starts with [btn:] but does not have three fields, or
    starts with [stick:] but does not have four, makes the tuple assignment of
    [handle_line] fail: the error leaves [handle_line] with nothing printed
    and nothing sent, and the read loop of the connection ends on it without
    handling the lines that follow. *)
Theorem malformed_line_ends_connection (line : string) (w : World) :
  (PyStr.startswith "btn:" line = true ->
   length (PyStr.split ":" line) <> 3%nat ->
   handle_line line w = (w, Raise (UnpackError 3 (length (PyStr.split ":" line))))
   /\ forall data chunk rest,
        decode_utf8 data = Some chunk -> PyStr.rstrip_nl chunk = line ->
        handle_client (Chunk data :: rest) w
          = (w, UnpackError 3 (length (PyStr.split ":" line))))
  /\ (PyStr.startswith "btn:" line = false ->
      PyStr.startswith "stick:" line = true ->
      length (PyStr.split ":" line) <> 4%nat ->
      handle_line line w = (w, Raise (UnpackError 4 (length (PyStr.split ":" line))))
      /\ forall data chunk rest,
           decode_utf8 data = Some chunk -> PyStr.rstrip_nl chunk = line ->
           handle_client (Chunk data :: rest) w
             = (w, UnpackError 4 (length (PyStr.split ":" line)))).
Proof.
  split.
  - intros Hbtn Hlen.
    assert (Hp : parse_line line = Raise (UnpackError 3 (length (PyStr.split ":" line)))).
    { unfold parse_line. rewrite Hbtn.
      destruct (PyStr.split ":" line) as [| a [| b [| c [| d l]]]]; simpl in *;
        try reflexivity. congruence. }
    split; [apply handle_line_unpack_error, Hp |].
    intros data chunk rest Hdec Hc. simpl.
    rewrite Hdec, Hc, (handle_line_unpack_error _ _ _ _ Hp). reflexivity.
  - intros Hbtn Hstick Hlen.
    assert (Hp : parse_line line = Raise (UnpackError 4 (length (PyStr.split ":" line)))).
    { unfold parse_line. rewrite Hbtn, Hstick.
      destruct (PyStr.split ":" line) as [| a [| b [| c [| d [| x l]]]]]; simpl in *;
        try reflexivity. congruence. }
    split; [apply handle_line_unpack_error, Hp |].
    intros data chunk rest Hdec Hc. simpl.
    rewrite Hdec, Hc, (handle_line_unpack_error _ _ _ _ Hp). reflexivity.
Qed.

(** X4. Whatever the line, the parser yields one of five shapes: [hold] or
    [release] with one button, [stick] with a side and a direction, [nfc] with
    one path, or the empty command without arguments. A handler therefore never
    gets more arguments from a line than these, and [cmd_stick] never gets a
    value. *)
Theorem parse_line_shapes (line cmd : string) (args : list string) :
  parse_line line = Ok (cmd, args) ->
  (exists button, (cmd = "hold" \/ cmd = "release") /\ args = [button])
  \/ (exists side direction, cmd = "stick" /\ args = [side; direction])
  \/ (exists path, cmd = "nfc" /\ args = [path])
  \/ (cmd = EmptyString /\ args = []).
Proof.
  unfold parse_line. intros H.
  destruct (PyStr.startswith "btn:" line).
  { destruct (PyStr.split ":" line) as [| a [| b [| c [| d l]]]]; try discriminate.
    left. destruct (c =? "true"); injection H as <- <-; eauto. }
  destruct (PyStr.startswith "stick:" line).
  { destruct (PyStr.split ":" line) as [| a [| b [| c [| d [| x l]]]]]; try discriminate.
    right. left. destruct (d =? "true"); injection H as <- <-; eauto. }
  destruct (PyStr.startswith "nfc:" line).
  { destruct (PyStr.split_max ":" 1 line) as [| a [| b [| c l]]]; try discriminate.
    right. right. left. injection H as <- <-. eauto. }
  right. right. right. injection H as <- <-. auto.
Qed.

Lemma run_handler_commands (handler : Handler) (args : list string)
      (c : gmap string Handler) (w : World) :
  run_handler handler args (with_commands c w)
    = (with_commands c (fst (run_handler handler args w)), snd (run_handler handler args w)).
Proof.
  unfold run_handler, try_except, bind, on_state, zoom. simpl.
  destruct (handler args (controller_state w)) as [e [result | err]]; simpl.
  - destruct result as [[| ch r] |]; reflexivity.
  - reflexivity.
Qed.

Lemma flush_commands (c : gmap string Handler) (w : World) :
  flush (with_commands c w) = (with_commands c (fst (flush w)), snd (flush w)).
Proof.
  rewrite !flush_cases. cbv zeta. simpl.
  destruct (link (controller_state w) (link_ops (controller_state w))); reflexivity.
Qed.

(** X5. The line protocol reaches the built-in [stick] and the registry
    entries [hold], [release], [nfc] and the empty name only. Registering a
    handler under any other name changes nothing in what [handle_line] does
    for any line: the handler is never called, and the state, the printed
    lines and the result are the same. *)
Theorem other_commands_unreachable
  (line name : string) (handler : Handler) (w : World) :
  name <> "hold" -> name <> "release" -> name <> "nfc" -> name <> EmptyString ->
  handle_line line (with_commands (<[name := handler]> (commands w)) w)
    = (with_commands (<[name := handler]> (commands w)) (fst (handle_line line w)),
       snd (handle_line line w)).
Proof.
  intros Hhold Hrel Hnfc Hempty.
  set (c' := <[name := handler]> (commands w)).
  destruct (string_dec line EmptyString) as [-> | Hne]; [reflexivity |].
  destruct (parse_line line) as [[cmd args] | err] eqn:Hp.
  2:{ unfold handle_line. destruct line; [congruence |]. rewrite Hp. reflexivity. }
  rewrite !(handle_line_parsed line cmd args _ Hne Hp).
  unfold bind. rewrite !dispatch_resolve.
  assert (Hres : resolve cmd (with_commands c' w) = resolve cmd w).
  { unfold resolve. destruct (builtin cmd) eqn:Hb; [reflexivity |].
    simpl. subst c'. apply lookup_insert_ne.
    destruct (parse_line_shapes line cmd args Hp)
      as [(b & [-> | ->] & _) | [(sd & d & -> & _) | [(pa & -> & _) | (-> & _)]]];
      try congruence.
    discriminate Hb. }
  rewrite Hres. destruct (resolve cmd w) as [h |].
  - rewrite run_handler_commands.
    destruct (run_handler h args w) as [w1 [[] | e]]; simpl; [apply flush_commands | reflexivity].
  - unfold print, modify. simpl.
    apply (flush_commands c' (mkWorld (commands w) (controller_state w)
                                (stdout w ++ [not_found cmd]))).
Qed.

End LineDispatch.

Section LineEffects.
Context `{Ext : Externals}.

Lemma stick_msg_nonempty (s : StickState) : exists c r, stick_msg s = String c r.
Proof. unfold stick_msg. destruct stick_class_name; simpl; eauto. Qed.

Lemma run_handler_result (handler : Handler) (args : list string) (w : World) e c r :
  handler args (controller_state w) = (e, Ok (Some (String c r))) ->
  run_handler handler args w
    = (mkWorld (commands w) e (stdout w ++ [PrintStr (String c r)]), Ok tt).
Proof.
  intros H. unfold run_handler, try_except, bind, on_state, zoom. rewrite H. reflexivity.
Qed.

Lemma cmd_stick_missing_value (side direction : string) (e : Env) :
  valid_side side = true ->
  is_horizontal direction || is_vertical direction = true ->
  cmd_stick side direction None e = (e, Raise (ValueError "Missing value")).
Proof.
  intros Hside Haxis. rewrite (cmd_stick_valid side direction None e Hside).
  apply orb_prop in Haxis as [Hh | Hv].
  - rewrite (set_stick_horizontal direction None _ Hh). simpl.
    rewrite put_stick_same. reflexivity.
  - rewrite (set_stick_vertical direction None _ Hv). simpl.
    rewrite put_stick_same. reflexivity.
Qed.

Lemma parsed_line_nonempty (line cmd : string) (args : list string) :
  parse_line line = Ok (cmd, args) -> cmd <> EmptyString -> line <> EmptyString.
Proof. intros Hp Hc ->. injection Hp as <- _. congruence. Qed.

(** X6. The line protocol cannot set an axis value: a line never carries a
    value to [cmd_stick], so whenever a line asks a valid side for [h],
    [horizontal], [v] or [vertical], the command fails with "Missing value",
    the error is printed, both sticks stay where they were and the flush
    follows. *)
Theorem line_protocol_cannot_set_axis (line side direction : string) (w : World) :
  parse_line line = Ok ("stick", [side; direction]) ->
  valid_side side = true ->
  is_horizontal direction || is_vertical direction = true ->
  handle_line line w
    = flush (mkWorld (commands w) (controller_state w)
               (stdout w ++ [PrintExn (ValueError "Missing value")])).
Proof.
  intros Hp Hside Haxis.
  assert (Hne : line <> EmptyString) by (apply (parsed_line_nonempty _ _ _ Hp); discriminate).
  rewrite (handle_line_parsed line _ _ w Hne Hp). unfold bind.
  rewrite dispatch_resolve. change (resolve "stick" w) with (Some call_cmd_stick).
  cbv iota.
  rewrite (run_handler_raise call_cmd_stick [side; direction] w (controller_state w)
             (ValueError "Missing value")); [reflexivity |].
  unfold call_cmd_stick, bind. rewrite (cmd_stick_missing_value _ _ _ Hside Haxis).
  reflexivity.
Qed.

(** X7. A [stick:] line of four fields whose last field is not [true] puts
    the stick of a valid side on its centre preset, whatever the direction
    field holds, prints the stick's new position and flushes. *)
Theorem stick_release_centres (side direction pressed : string) (w : World) :
  colon_free side = true -> colon_free direction = true -> colon_free pressed = true ->
  pressed <> "true" ->
  valid_side side = true ->
  let e := controller_state w in
  let centred := set_center (stick_of side e) in
  handle_line ("stick:" +:+ side +:+ ":" +:+ direction +:+ ":" +:+ pressed) w
    = flush (mkWorld (commands w) (put_stick side centred e)
               (stdout w ++ [PrintStr (stick_msg centred)]))
  /\ (get_h centred, get_v centred) = preset_pos (stick_of side e) Center.
Proof.
  intros Hs Hd Hpr Hnt Hside. cbv zeta. split.
  - pose proof (parse_stick_other_flag side direction pressed Hs Hd Hpr Hnt) as Hp.
    assert (Hne : "stick:" +:+ side +:+ ":" +:+ direction +:+ ":" +:+ pressed <> EmptyString)
      by discriminate.
    rewrite (handle_line_parsed _ _ _ w Hne Hp). unfold bind.
    rewrite dispatch_resolve. change (resolve "stick" w) with (Some call_cmd_stick).
    cbv iota.
    destruct (stick_msg_nonempty (set_center (stick_of side (controller_state w))))
      as (c & r & Hmsg).
    rewrite (run_handler_result call_cmd_stick [side; "center"] w
               (put_stick side (set_center (stick_of side (controller_state w)))
                  (controller_state w)) c r).
    + rewrite Hmsg. reflexivity.
    + unfold call_cmd_stick, bind.
      rewrite (cmd_stick_valid side "center" None _ Hside).
      rewrite (set_stick_preset "center" None _ Center eq_refl). simpl.
      unfold ret. rewrite <- Hmsg. reflexivity.
  - unfold get_h, get_v, set_center, set_preset. simpl.
    destruct (preset_pos (stick_of side (controller_state w)) Center); reflexivity.
Qed.

Lemma parse_line_raises (line : string) (err : exn) :
  parse_line line = Raise err -> exists expected got, err = UnpackError expected got.
Proof.
  unfold parse_line. intros H.
  destruct (PyStr.startswith "btn:" line).
  { destruct (PyStr.split ":" line) as [| a [| b [| c [| d l]]]];
      try (injection H as <-; eauto).
    destruct (c =? "true"); discriminate. }
  destruct (PyStr.startswith "stick:" line).
  { destruct (PyStr.split ":" line) as [| a [| b [| c [| d [| x l]]]]];
      try (injection H as <-; eauto).
    destruct (d =? "true"); discriminate. }
  destruct (PyStr.startswith "nfc:" line); [| discriminate].
  destruct (PyStr.split_max ":" 1 line) as [| a [| b [| c l]]];
    try (injection H as <-; eauto). discriminate.
Qed.


Lemma handle_line_raise_source (line : string) (w : World) (err : exn) :
  snd (handle_line line w) = Raise err ->
  (exists expected got, err = UnpackError expected got /\ handle_line line w = (w, Raise err))
  \/ (exists cmd args w1,
        parse_line line = Ok (cmd, args)
        /\ dispatch cmd args w = (w1, Ok tt)
        /\ handle_line line w = flush w1
        /\ snd (flush w1) = Raise err).
Proof.
  destruct (string_dec line EmptyString) as [-> | Hne]; [discriminate |].
  destruct (parse_line line) as [[cmd args] | e] eqn:Hp.
  - rewrite (handle_line_parsed line cmd args w Hne Hp). unfold bind.
    destruct (dispatch_ok cmd args w) as [w1 Hd]. rewrite Hd.
    intros H. right. exists cmd, args, w1. auto.
  - destruct (parse_line_raises line e Hp) as (expected & got & ->).
    rewrite (handle_line_unpack_error line w expected got Hp). simpl.
    intros [= <-]. left. eauto.
Qed.

(** X8. An exception that leaves [handle_line] is either the failed tuple
    assignment of a malformed line, which leaves everything untouched, or what
    the flush raised after the dispatch had returned: an error of a command
    handler never leaves it. The read loop of a connection ends at the end of
    the stream, on a failed read, on a chunk that does not decode, or on one
    of these two. *)
Theorem connection_ends_only_by (reader : list Read) (line : string) (w : World) :
  (forall err, snd (handle_line line w) = Raise err ->
     (exists expected got, err = UnpackError expected got
                           /\ handle_line line w = (w, Raise err))
     \/ (exists cmd args w1,
           parse_line line = Ok (cmd, args)
           /\ dispatch cmd args w = (w1, Ok tt)
           /\ handle_line line w = flush w1
           /\ snd (flush w1) = Raise err))
  /\ (snd (handle_client reader w) = IncompleteReadError
      \/ (exists f, Failed f ∈ reader /\ snd (handle_client reader w) = read_exn f)
      \/ (exists data, Chunk data ∈ reader /\ decode_utf8 data = None
                       /\ snd (handle_client reader w) = UnicodeDecodeError)
      \/ (exists expected got, snd (handle_client reader w) = UnpackError expected got)
      \/ (exists w1, snd (flush w1) = Raise (snd (handle_client reader w)))).
Proof.
  split; [apply handle_line_raise_source |].
  revert w. induction reader as [| [data | f] rest IH]; intros w; simpl.
  - auto.
  - destruct (decode_utf8 data) as [text |] eqn:Hdec.
    + destruct (handle_line (PyStr.rstrip_nl text) w) as [w' [[] | err]] eqn:Hl.
      * destruct (IH w') as [H | [(f & Hin & H) | [(d & Hin & Hd & H) | [H | H]]]].
        -- auto.
        -- right. left. exists f. split; [apply elem_of_cons; auto | exact H].
        -- right. right. left. exists d. split; [apply elem_of_cons; auto | auto].
        -- auto.
        -- auto 6.
      * simpl.
        destruct (handle_line_raise_source (PyStr.rstrip_nl text) w err)
          as [(n & m & -> & _) | (cmd & args & w1 & _ & _ & _ & Hf)];
          [rewrite Hl; reflexivity | eauto 8 | eauto 8].
    + right. right. left. exists data.
      split; [apply elem_of_cons; auto | auto].
  - right. left. exists f. split; [apply elem_of_cons; auto | reflexivity].
Qed.



End LineEffects.

(** * Further properties of the registry and of the button commands *)

Section RegistryExtras.
Context `{Ext : Externals}.

Lemma add_command_fresh (name : string) (command : Handler) (cmds : gmap string Handler) :
  cmds !! name = None -> add_command name command cmds = (<[name := command]> cmds, Ok tt).
Proof. intros H. unfold add_command. rewrite H. reflexivity. Qed.

Lemma add_command_taken (name : string) (command old : Handler) (cmds : gmap string Handler) :
  cmds !! name = Some old ->
  add_command name command cmds
    = (cmds, Raise (ValueError ("Command " +:+ name +:+ " already registered."))).
Proof. intros H. unfold add_command. rewrite H. reflexivity. Qed.

(** X10. [add_command] never replaces a handler: whatever it is called with,
    every name the registry held keeps its handler, whether the call returns
    or raises. In particular a second registration under a name just
    registered raises and the first handler stays. *)
Theorem add_command_never_overwrites
  (name other : string) (command second old : Handler) (cmds : gmap string Handler) :
  (cmds !! other = Some old ->
     fst (add_command name command cmds) !! other = Some old)
  /\ (cmds !! name = None ->
      (add_command name command;; add_command name second) cmds
        = (<[name := command]> cmds,
           Raise (ValueError ("Command " +:+ name +:+ " already registered."))))
  /\ dom cmds ⊆ dom (fst (add_command name command cmds)).
Proof.
  split; [| split].
  - intros Hold. unfold add_command. destruct (cmds !! name) eqn:Hn; simpl; [exact Hold |].
    rewrite lookup_insert_ne; [exact Hold | congruence].
  - intros Hfresh. unfold bind. rewrite (add_command_fresh _ _ _ Hfresh).
    apply (add_command_taken name second command). apply lookup_insert_eq.
  - unfold add_command. destruct (cmds !! name); simpl; [reflexivity |].
    rewrite dom_insert_L. set_solver.
Qed.

(** X11. [_register_commands_with_controller_state] returns normally exactly
    when none of [hold], [release] and [nfc] is registered yet; the registry
    then holds the three handlers under these names and every other name is
    as it was. *)
Theorem register_commands_adds_three (cmds : gmap string Handler) :
  (snd (_register_commands_with_controller_state cmds) = Ok tt
   <-> cmds !! "hold" = None /\ cmds !! "release" = None /\ cmds !! "nfc" = None)
  /\ (snd (_register_commands_with_controller_state cmds) = Ok tt ->
      let cmds' := fst (_register_commands_with_controller_state cmds) in
      cmds' !! "hold" = Some hold
      /\ cmds' !! "release" = Some release
      /\ cmds' !! "nfc" = Some call_nfc
      /\ forall other, other <> "hold" -> other <> "release" -> other <> "nfc" ->
           cmds' !! other = cmds !! other).
Proof.
  assert (Hiff : snd (_register_commands_with_controller_state cmds) = Ok tt
            <-> cmds !! "hold" = None /\ cmds !! "release" = None /\ cmds !! "nfc" = None).
  { unfold _register_commands_with_controller_state, bind, add_command.
    destruct (cmds !! "hold") eqn:Hh; simpl.
    { split; [discriminate | intros (H & _); discriminate]. }
    rewrite lookup_insert_ne by discriminate.
    destruct (cmds !! "release") eqn:Hr; simpl.
    { split; [discriminate | intros (_ & H & _); discriminate]. }
    rewrite !lookup_insert_ne by discriminate.
    destruct (cmds !! "nfc") eqn:Hn; simpl.
    { split; [discriminate | intros (_ & _ & H); discriminate]. }
    split; auto. }
  split; [exact Hiff |].
  intros Hok. apply Hiff in Hok as (Hh & Hr & Hn). cbv zeta.
  unfold _register_commands_with_controller_state, bind, add_command.
  rewrite Hh. simpl. rewrite lookup_insert_ne by discriminate. rewrite Hr. simpl.
  rewrite !lookup_insert_ne by discriminate. rewrite Hn. simpl.
  split; [rewrite !lookup_insert_ne by discriminate; apply lookup_insert_eq |].
  split; [rewrite lookup_insert_ne by discriminate; apply lookup_insert_eq |].
  split; [apply lookup_insert_eq |].
  intros other H1 H2 H3. rewrite !lookup_insert_ne by congruence. reflexivity.
Qed.

(** X12. The registration of the three commands is not all-or-nothing: when
    [release] is taken and [hold] is not, the call raises for [release] after
    it has added [hold], and [nfc] is not added. Running the registration a
    second time raises for [hold] and leaves the registry of the first run. *)
Theorem register_commands_stops_at_first_duplicate (cmds : gmap string Handler) :
  (cmds !! "hold" = None -> is_Some (cmds !! "release") ->
     _register_commands_with_controller_state cmds
       = (<["hold" := hold]> cmds, Raise (ValueError "Command release already registered.")))
  /\ (snd (_register_commands_with_controller_state cmds) = Ok tt ->
      _register_commands_with_controller_state
        (fst (_register_commands_with_controller_state cmds))
        = (fst (_register_commands_with_controller_state cmds),
           Raise (ValueError "Command hold already registered."))).
Proof.
  split.
  - intros Hh [old Hr].
    unfold _register_commands_with_controller_state, bind, add_command.
    rewrite Hh. simpl. rewrite lookup_insert_ne by discriminate. rewrite Hr. reflexivity.
  - unfold _register_commands_with_controller_state at 1 3 4, bind, add_command.
    destruct (cmds !! "hold") eqn:Hh; simpl; [discriminate |].
    rewrite lookup_insert_ne by discriminate.
    destruct (cmds !! "release") eqn:Hr; simpl; [discriminate |].
    rewrite !lookup_insert_ne by discriminate.
    destruct (cmds !! "nfc") eqn:Hn; simpl; [discriminate |].
    intros _. unfold _register_commands_with_controller_state, bind, add_command.
    rewrite !lookup_insert_ne by discriminate. rewrite lookup_insert_eq. reflexivity.
Qed.

(** X13. [ensure_valid_button] accepts a list exactly when every button of it
    is advertised, and otherwise its error names the first button of the list
    that is not. *)
Theorem ensure_valid_button_first_unknown
  (cs : ControllerState) (buttons before after : list string) (bad : string) :
  (ensure_valid_button cs buttons = Ok tt
   <-> forall button, button ∈ buttons -> button ∈ available_buttons cs)
  /\ ((forall button, button ∈ before -> button ∈ available_buttons cs) ->
      bad ∉ available_buttons cs ->
      ensure_valid_button cs (before ++ bad :: after) = Raise (button_error cs bad)).
Proof.
  split.
  - split; [| apply ensure_valid_button_accepts].
    induction buttons as [| b rest IH]; intros Hok button Hin.
    + apply elem_of_nil in Hin. contradiction.
    + simpl in Hok. case_bool_decide as Hb; [| discriminate].
      apply elem_of_cons in Hin as [-> | Hin]; [exact Hb | apply IH; assumption].
  - intros Hbefore Hbad. induction before as [| b rest IH]; simpl.
    + rewrite bool_decide_eq_false_2 by exact Hbad. reflexivity.
    + rewrite bool_decide_eq_true_2 by (apply Hbefore, elem_of_cons; auto).
      apply IH. intros button Hin. apply Hbefore, elem_of_cons. auto.
Qed.

End RegistryExtras.

Section ButtonExtras.
Context `{Ext : Externals}.

(** X14. With a non-empty list of advertised buttons, [hold] and [release]
    log first, then wait for the connection, then change the buttons: when the
    link is up the buttons are added to, respectively removed from, the held
    ones and nothing is returned; when the connection fails the error is
    raised after the log line and no button changes. *)
Theorem hold_release_change_buttons_after_connect (args : list string) (e : Env) :
  args <> [] ->
  (forall button, button ∈ args -> button ∈ available_buttons (state e)) ->
  (link e (link_ops e) = true ->
     snd (hold args e) = Ok None
     /\ held (state (fst (hold args e))) = held (state e) ∪ list_to_set args
     /\ trace (fst (hold args e))
        = trace e ++ [EvLog ("Holding " +:+ PyStr.join " " args); EvConnect; EvPress args]
     /\ snd (release args e) = Ok None
     /\ held (state (fst (release args e))) = held (state e) ∖ list_to_set args
     /\ trace (fst (release args e))
        = trace e ++ [EvLog ("Releasing " +:+ PyStr.join " " args); EvConnect; EvRelease args])
  /\ (link e (link_ops e) = false ->
      snd (hold args e) = Raise NotConnectedError
      /\ held (state (fst (hold args e))) = held (state e)
      /\ trace (fst (hold args e))
         = trace e ++ [EvLog ("Holding " +:+ PyStr.join " " args); EvConnect]
      /\ snd (release args e) = Raise NotConnectedError
      /\ held (state (fst (release args e))) = held (state e)
      /\ trace (fst (release args e))
         = trace e ++ [EvLog ("Releasing " +:+ PyStr.join " " args); EvConnect]).
Proof.
  intros Hne Hall.
  pose proof (ensure_valid_button_accepts (state e) args Hall) as Hvalid.
  destruct args as [| a rest]; [congruence |].
  split; intros Hlink;
    unfold hold, release, bind, check_buttons, log_info, connect, on_link,
      button_press, button_release, modify, ret;
    rewrite Hvalid; cbn [state link link_ops emit link_used with_state trace held with_held];
    rewrite Hlink; cbn [state link link_ops emit link_used with_state trace held with_held
                          fst snd];
    repeat split; rewrite <- ?app_assoc; reflexivity.
Qed.

End ButtonExtras.

(** * Further properties of the nfc command *)

Section NfcExtras.
Context `{Ext : Externals}.

(** X15. [nfc] touches the tag payload, the trace and the scheduled tasks
    only: whatever its arguments and whether it returns or raises, the
    controller variant, the buttons, both sticks, the link and the files are
    as before. *)
Theorem nfc_leaves_the_rest (file_path : string) (sec : delay) (e : Env) :
  let e1 := fst (nfc file_path sec e) in
  controller (state e1) = controller (state e)
  /\ available_buttons (state e1) = available_buttons (state e)
  /\ held (state e1) = held (state e)
  /\ l_stick_state (state e1) = l_stick_state (state e)
  /\ r_stick_state (state e1) = r_stick_state (state e)
  /\ link e1 = link e
  /\ link_ops e1 = link_ops e
  /\ files e1 = files e.
Proof.
  cbv zeta. unfold nfc, bind, get. case_bool_decide; [simpl; auto 10 |].
  destruct (file_path =? EmptyString); [simpl; auto 10 |].
  unfold clear_nfc, sleep, log_info, set_nfc, modify, load_nfc, bind. simpl.
  destruct (files e file_path); simpl; auto 10.
Qed.

(** X16. [nfc] returns normally exactly when the variant is not the left
    Joy-Con, the path is not empty and the file can be read. Then the payload
    is the file's content and one clearing task is added to the scheduled
    ones; otherwise no task is added. No call removes a scheduled task. *)
Theorem nfc_schedules_on_success_only (file_path : string) (sec : delay) (e : Env) :
  (snd (nfc file_path sec e) = Ok tt
   <-> controller (state e) <> JOYCON_L /\ file_path <> EmptyString
       /\ exists content, files e file_path = Content content)
  /\ (forall content, snd (nfc file_path sec e) = Ok tt ->
        files e file_path = Content content ->
        nfc_content (state (fst (nfc file_path sec e))) = Some content)
  /\ scheduled (fst (nfc file_path sec e))
     = scheduled e ++ match snd (nfc file_path sec e) with
                      | Ok _ => [ClearNfc sec]
                      | Raise _ => []
                      end.
Proof.
  unfold nfc, bind, get. case_bool_decide as Hc; simpl.
  { split; [split; [discriminate | intros (H & _); contradiction] |].
    split; [discriminate | rewrite app_nil_r; reflexivity]. }
  destruct (file_path =? EmptyString) eqn:Hp; simpl.
  { apply String.eqb_eq in Hp.
    split; [split; [discriminate | intros (_ & H & _); contradiction] |].
    split; [discriminate | rewrite app_nil_r; reflexivity]. }
  apply String.eqb_neq in Hp.
  unfold clear_nfc, sleep, log_info, set_nfc, modify, load_nfc, bind. simpl.
  destruct (files e file_path) as [| | data] eqn:Hf; simpl.
  - split; [split; [discriminate | intros (_ & _ & c & H); discriminate] |].
    split; [discriminate | rewrite app_nil_r; reflexivity].
  - split; [split; [discriminate | intros (_ & _ & c & H); discriminate] |].
    split; [discriminate | rewrite app_nil_r; reflexivity].
  - split; [split; [eauto | reflexivity] |].
    split; [intros content _ [= <-]; reflexivity | reflexivity].
Qed.

Lemma nfc_loaded (file_path : string) (sec : delay) (content : list byte) (e : Env) :
  controller (state e) <> JOYCON_L ->
  file_path <> EmptyString ->
  files e file_path = Content content ->
  snd (nfc file_path sec e) = Ok tt
  /\ nfc_content (state (fst (nfc file_path sec e))) = Some content
  /\ scheduled (fst (nfc file_path sec e)) = scheduled e ++ [ClearNfc sec]
  /\ controller (state (fst (nfc file_path sec e))) = controller (state e)
  /\ files (fst (nfc file_path sec e)) = files e.
Proof.
  intros Hc Hp Hf. rewrite (nfc_checks_passed file_path sec e Hc Hp).
  unfold bind, clear_nfc, sleep, log_info, set_nfc, modify, load_nfc, bind. simpl.
  rewrite Hf. simpl. auto.
Qed.

Lemma clear_nfc_clears (n : Z) (e : Env) :
  snd (clear_nfc (Seconds n) e) = Ok tt
  /\ nfc_content (state (fst (clear_nfc (Seconds n) e))) = None.
Proof. split; reflexivity. Qed.

(** X17. A load does not cancel the clear that an earlier load scheduled.
    After two loads in a row both clears are pending and the payload is the
    second file; when the first load's clear then runs, it removes the second
    file's payload. *)
Theorem earlier_clear_removes_later_payload
  (path1 path2 : string) (content1 content2 : list byte) (n1 : Z) (sec2 : delay) (e : Env) :
  controller (state e) <> JOYCON_L ->
  path1 <> EmptyString -> path2 <> EmptyString ->
  files e path1 = Content content1 ->
  files e path2 = Content content2 ->
  let e1 := fst (nfc path1 (Seconds n1) e) in
  let e2 := fst (nfc path2 sec2 e1) in
  snd (nfc path2 sec2 e1) = Ok tt
  /\ nfc_content (state e2) = Some content2
  /\ scheduled e2 = scheduled e ++ [ClearNfc (Seconds n1); ClearNfc sec2]
  /\ snd (run_task (ClearNfc (Seconds n1)) e2) = Ok tt
  /\ nfc_content (state (fst (run_task (ClearNfc (Seconds n1)) e2))) = None.
Proof.
  intros Hc Hp1 Hp2 Hf1 Hf2. cbv zeta.
  destruct (nfc_loaded path1 (Seconds n1) content1 e Hc Hp1 Hf1)
    as (_ & _ & Hs1 & Hc1 & Hfiles1).
  set (e1 := fst (nfc path1 (Seconds n1) e)) in *.
  assert (Hc' : controller (state e1) <> JOYCON_L) by (rewrite Hc1; exact Hc).
  assert (Hf2' : files e1 path2 = Content content2) by (rewrite Hfiles1; exact Hf2).
  destruct (nfc_loaded path2 sec2 content2 e1 Hc' Hp2 Hf2') as (Hok & Hpay & Hs2 & _).
  split; [exact Hok |]. split; [exact Hpay |].
  split; [rewrite Hs2, Hs1, <- app_assoc; reflexivity |].
  apply (clear_nfc_clears n1).
Qed.

Lemma run_handler_silent (handler : Handler) (args : list string) (w : World) e :
  handler args (controller_state w) = (e, Ok None) ->
  run_handler handler args w = (mkWorld (commands w) e (stdout w), Ok tt).
Proof.
  intros H. unfold run_handler, try_except, bind, on_state, zoom. rewrite H. reflexivity.
Qed.

(** X18. With [nfc] registered as the program registers it, a line [nfc:]
    followed by a path runs [nfc] on that path with a delay of 3 seconds: a
    line cannot choose the delay. Nothing is printed when the load succeeds,
    the error is printed when it fails, and the flush follows in both cases. *)
Theorem nfc_line_uses_three_seconds (path : string) (w : World) :
  commands w !! "nfc" = Some call_nfc ->
  let r := nfc path (Seconds 3) (controller_state w) in
  handle_line ("nfc:" +:+ path) w
    = flush (mkWorld (commands w) (fst r)
               (stdout w ++ match snd r with
                            | Ok _ => []
                            | Raise err => [PrintExn err]
                            end)).
Proof.
  intros Hreg. cbv zeta.
  assert (Hne : "nfc:" +:+ path <> EmptyString) by discriminate.
  rewrite (handle_line_parsed _ _ _ w Hne (parse_nfc_keeps_path path)). unfold bind.
  rewrite dispatch_resolve.
  assert (Hres : resolve "nfc" w = Some call_nfc) by exact Hreg.
  rewrite Hres.
  destruct (nfc path (Seconds 3) (controller_state w)) as [e1 [[] | err]] eqn:Hn; simpl.
  - rewrite (run_handler_silent call_nfc [path] w e1).
    + rewrite app_nil_r. destruct w; reflexivity.
    + unfold call_nfc, bind. rewrite Hn. reflexivity.
  - rewrite (run_handler_raise call_nfc [path] w e1 err); [reflexivity |].
    unfold call_nfc, bind. rewrite Hn. reflexivity.
Qed.

End NfcExtras.

(** * Further properties of the stick command *)

Section StickExtras.
Context `{Ext : Externals}.

(** X19. [cmd_stick] changes at most the stick it addresses: the controller
    variant, the buttons, the tag payload, the link, the files, the scheduled
    tasks and the trace are as before, one of the two sticks is untouched,
    and with an invalid side nothing changes at all. *)
Theorem cmd_stick_leaves_the_rest
  (side direction : string) (value : option string) (e : Env) :
  let e1 := fst (cmd_stick side direction value e) in
  controller (state e1) = controller (state e)
  /\ available_buttons (state e1) = available_buttons (state e)
  /\ held (state e1) = held (state e)
  /\ nfc_content (state e1) = nfc_content (state e)
  /\ (link e1, link_ops e1, files e1) = (link e, link_ops e, files e)
  /\ (scheduled e1, trace e1) = (scheduled e, trace e)
  /\ (valid_side side = true -> other_stick side e1 = other_stick side e)
  /\ (valid_side side = false -> e1 = e).
Proof.
  cbv zeta. destruct (valid_side side) eqn:Hside.
  - rewrite (cmd_stick_valid side direction value e Hside). simpl.
    rewrite other_stick_put. unfold put_stick.
    destruct (is_left_side side); simpl; repeat split; discriminate.
  - rewrite (cmd_stick_invalid side direction value e Hside). simpl.
    repeat split; discriminate.
Qed.

(** X20. The long and the short tokens are the same command: [l] and [left],
    [r] and [right] select the same stick, and [h] and [horizontal], [v] and
    [vertical] set the same component, with the same state and the same
    result for every other argument. *)
Theorem stick_tokens_are_aliases
  (side direction : string) (value : option string) (e : Env) :
  cmd_stick "l" direction value e = cmd_stick "left" direction value e
  /\ cmd_stick "r" direction value e = cmd_stick "right" direction value e
  /\ cmd_stick side "h" value e = cmd_stick side "horizontal" value e
  /\ cmd_stick side "v" value e = cmd_stick side "vertical" value e.
Proof.
  split; [reflexivity |]. split; [reflexivity |].
  destruct (valid_side side) eqn:Hside.
  - rewrite !(cmd_stick_valid side _ value e Hside).
    rewrite (set_stick_horizontal "h"), (set_stick_horizontal "horizontal") by reflexivity.
    rewrite (set_stick_vertical "v"), (set_stick_vertical "vertical") by reflexivity.
    split; reflexivity.
  - rewrite !(cmd_stick_invalid side _ value e Hside). split; reflexivity.
Qed.

End StickExtras.

(** * Properties of the endpoint *)

Section EndpointExtras.
Context `{P : Platform}.

Lemma remove_stale_keeps (ep ep1 : Endpoint) (r : res unit) :
  remove_stale ep = (ep1, r) -> ep1 = with_os (os ep1) ep.
Proof.
  unfold remove_stale, on_os, zoom.
  destruct (os_unlink (socket_location ep) (os ep)) as [o1 [[] | err]]; simpl.
  - intros [= <- _]. reflexivity.
  - destruct err; try (intros [= <- _]; reflexivity).
    simpl. destruct (os_path_exists (socket_location ep) o1); intros [= <- _]; reflexivity.
Qed.

(** X21. [start_server] gives up on a stale endpoint it cannot remove: when
    [os.unlink] raises an [OSError] and the path exists afterwards, that error
    leaves [start_server], no server is started and no permission is changed.
    A path that is merely missing is no error: the server is then started as
    after a successful removal. *)
Theorem start_server_stale_endpoint (ep : Endpoint) (o1 : Os) (path : string) :
  os_unlink (socket_location ep) (os ep) = (o1, Raise (OSError path)) ->
  (os_path_exists (socket_location ep) o1 = true ->
     start_server ep = (with_os o1 ep, Raise (OSError path)))
  /\ (os_path_exists (socket_location ep) o1 = false ->
      forall ep', socket_location ep' = socket_location ep ->
                  server ep' = server ep ->
                  os_unlink (socket_location ep') (os ep') = (o1, Ok tt) ->
                  start_server ep = start_server ep').
Proof.
  intros Hun.
  assert (Hrem : forall b, os_path_exists (socket_location ep) o1 = b ->
            remove_stale ep = (with_os o1 ep, if b then Raise (OSError path) else Ok tt)).
  { intros b Hb. unfold remove_stale, on_os, zoom. rewrite Hun. simpl. rewrite Hb.
    destruct b; reflexivity. }
  split.
  - intros Hex. unfold start_server, bind. rewrite (Hrem true Hex). reflexivity.
  - intros Hex ep' Hloc Hsrv Hun'.
    assert (Hrem' : remove_stale ep' = (with_os o1 ep', Ok tt)).
    { unfold remove_stale, on_os, zoom. rewrite Hun'. reflexivity. }
    unfold start_server, bind. rewrite (Hrem false Hex), Hrem'.
    destruct ep as [loc srv o], ep' as [loc' srv' o']. simpl in *. subst. reflexivity.
Qed.

(** X23. [start_server] returns normally only with a server stored in the
    interface. When the bind fails the server attribute is as before. When
    the bind succeeds and [os.chmod] then raises, the error leaves
    [start_server] with the new server already stored: the server runs with
    the permissions the bind gave. *)
Theorem start_server_outcomes (ep : Endpoint) :
  (forall ep2, start_server ep = (ep2, Ok tt) ->
     is_Some (server ep2) /\ socket_location ep2 = socket_location ep)
  /\ (forall ep1 o2 err,
        remove_stale ep = (ep1, Ok tt) ->
        start_unix_server (socket_location ep) (os ep1) = (o2, Raise err) ->
        start_server ep = (with_os o2 ep, Raise err))
  /\ (forall ep1 o2 srv o3 err,
        remove_stale ep = (ep1, Ok tt) ->
        start_unix_server (socket_location ep) (os ep1) = (o2, Ok srv) ->
        os_chmod (socket_location ep) 511 o2 = (o3, Raise err) ->
        start_server ep = (mkEndpoint (socket_location ep) (Some srv) o3, Raise err)).
Proof.
  split; [| split].
  - intros ep2. unfold start_server, bind, get, on_os, zoom, modify.
    destruct (remove_stale ep) as [ep1 [[] | err]] eqn:Hrem; [| discriminate].
    apply remove_stale_keeps in Hrem. rewrite Hrem. simpl.
    destruct (start_unix_server (socket_location ep) (os ep1)) as [o2 [srv | err]]; simpl;
      [| discriminate].
    destruct (os_chmod (socket_location ep) 511 o2) as [o3 [[] | err]]; simpl;
      [| discriminate].
    intros [= <-]. simpl. eauto.
  - intros ep1 o2 err Hrem Hbind.
    unfold start_server, bind, get, on_os, zoom, modify. rewrite Hrem.
    apply remove_stale_keeps in Hrem. rewrite Hrem. simpl. rewrite Hbind. reflexivity.
  - intros ep1 o2 srv o3 err Hrem Hbind Hmod.
    unfold start_server, bind, get, on_os, zoom, modify. rewrite Hrem.
    apply remove_stale_keeps in Hrem. rewrite Hrem. simpl. rewrite Hbind. simpl.
    rewrite Hmod. reflexivity.
Qed.

(** X22. [cleanup] on an interface whose server was never started fails on
    [self.server] and touches nothing. With a server it closes the server
    first and removes the endpoint second, and whatever [os.unlink] raises,
    a missing file included, leaves [cleanup] after the server was closed;
    the server attribute is never reset. *)
Theorem cleanup_closes_then_removes (ep : Endpoint) :
  (server ep = None ->
     exists what, cleanup ep = (ep, Raise (OtherError what)))
  /\ (forall srv o1 o2 r,
        server ep = Some srv ->
        server_close srv (os ep) = (o1, Ok tt) ->
        os_unlink (socket_location ep) o1 = (o2, r) ->
        cleanup ep = (with_os o2 ep, r)
        /\ server (fst (cleanup ep)) = Some srv).
Proof.
  split.
  - intros Hnone. unfold cleanup, bind, get. rewrite Hnone. eauto.
  - intros srv o1 o2 r Hsrv Hclose Hun.
    assert (Hc : cleanup ep = (with_os o2 ep, r)).
    { unfold cleanup, bind, get, try_except, on_os, zoom. rewrite Hsrv, Hclose. simpl.
      rewrite Hun. destruct r as [[] | err]; reflexivity. }
    rewrite Hc. split; [reflexivity | exact Hsrv].
Qed.

End EndpointExtras.

(** * The further properties on the sample device *)

Lemma grammar_lines_parse_witness :
  in_grammar "stick:l:up:false" = true
  /\ ((exists button, parse_line "stick:l:up:false" = Ok ("hold", [button])
                      \/ parse_line "stick:l:up:false" = Ok ("release", [button]))
      \/ (exists side direction, parse_line "stick:l:up:false" = Ok ("stick", [side; direction]))
      \/ (exists path, parse_line "stick:l:up:false" = Ok ("nfc", [path]))).
Proof. split; [reflexivity | exact (grammar_lines_parse "stick:l:up:false" eq_refl)]. Defined.

Lemma malformed_line_ends_connection_witness :
  let w := Sample.world0 PRO_CONTROLLER true in
  PyStr.startswith "btn:" "btn:a" = true
  /\ length (PyStr.split ":" "btn:a") <> 3%nat
  /\ handle_line "btn:a" w = (w, Raise (UnpackError 3 2))
  /\ decode_utf8 ("btn:a" +:+ String "010" EmptyString)
     = Some ("btn:a" +:+ String "010" EmptyString)
  /\ handle_client [Chunk ("btn:a" +:+ String "010" EmptyString); Chunk "btn:a:true"] w
     = (w, UnpackError 3 2)
  /\ PyStr.startswith "stick:" "stick:l:up" = true
  /\ handle_line "stick:l:up" w = (w, Raise (UnpackError 4 3)).
Proof.
  cbv zeta. set (w := Sample.world0 PRO_CONTROLLER true).
  assert (H3 : length (PyStr.split ":" "btn:a") <> 3%nat) by (intros H; discriminate H).
  assert (H4 : length (PyStr.split ":" "stick:l:up") <> 4%nat) by (intros H; discriminate H).
  destruct (malformed_line_ends_connection "btn:a" w) as (Hbtn & _).
  destruct (Hbtn eq_refl H3) as (Hline & Hloop).
  destruct (malformed_line_ends_connection "stick:l:up" w) as (_ & Hstick).
  destruct (Hstick eq_refl eq_refl H4) as (Hline' & _).
  split; [reflexivity |]. split; [exact H3 |]. split; [exact Hline |].
  split; [reflexivity |].
  split; [exact (Hloop ("btn:a" +:+ String "010" EmptyString)
                   ("btn:a" +:+ String "010" EmptyString) [Chunk "btn:a:true"]
                   eq_refl eq_refl) |].
  split; [reflexivity | exact Hline'].
Defined.

Lemma parse_line_shapes_witness :
  parse_line "btn:a:false" = Ok ("release", ["a"])
  /\ ((exists button, ("release" = "hold" \/ "release" = "release") /\ ["a"] = [button])
      \/ (exists side direction, "release" = "stick" /\ ["a"] = [side; direction])
      \/ (exists path, "release" = "nfc" /\ ["a"] = [path])
      \/ ("release" = EmptyString /\ ["a"] = [])).
Proof.
  split; [reflexivity | exact (parse_line_shapes "btn:a:false" "release" ["a"] eq_refl)].
Defined.

Lemma other_commands_unreachable_witness :
  let w := Sample.world0 PRO_CONTROLLER true in
  let w' := with_commands (<["dance" := Sample.failing]> (commands w)) w in
  "dance" <> "hold" /\ "dance" <> "release" /\ "dance" <> "nfc" /\ "dance" <> EmptyString
  /\ commands w' !! "dance" = Some Sample.failing
  /\ stdout (fst (handle_line "dance" w'))
     = [PrintStr "command  not found, call help for help."]
  /\ snd (handle_line "btn:a:true" w') = snd (handle_line "btn:a:true" w).
Proof.
  cbv zeta. set (w := Sample.world0 PRO_CONTROLLER true).
  assert (H1 : "dance" <> "hold") by discriminate.
  assert (H2 : "dance" <> "release") by discriminate.
  assert (H3 : "dance" <> "nfc") by discriminate.
  assert (H4 : "dance" <> EmptyString) by discriminate.
  pose proof (other_commands_unreachable "dance" "dance" Sample.failing w H1 H2 H3 H4) as Hd.
  pose proof (other_commands_unreachable "btn:a:true" "dance" Sample.failing w H1 H2 H3 H4)
    as Hb.
  split; [exact H1 |]. split; [exact H2 |]. split; [exact H3 |]. split; [exact H4 |].
  split; [apply lookup_insert_eq |].
  split; [rewrite Hd; vm_compute; reflexivity | rewrite Hb; reflexivity].
Defined.

Lemma line_protocol_cannot_set_axis_witness :
  let w := Sample.world0 PRO_CONTROLLER true in
  parse_line "stick:r:h:true" = Ok ("stick", ["r"; "h"])
  /\ valid_side "r" = true
  /\ is_horizontal "h" || is_vertical "h" = true
  /\ stdout (fst (handle_line "stick:r:h:true" w)) = [PrintExn (ValueError "Missing value")]
  /\ r_stick_state (state (controller_state (fst (handle_line "stick:r:h:true" w))))
     = Sample.stick0.
Proof.
  cbv zeta. set (w := Sample.world0 PRO_CONTROLLER true).
  pose proof (line_protocol_cannot_set_axis "stick:r:h:true" "r" "h" w eq_refl eq_refl eq_refl)
    as H.
  split; [reflexivity |]. split; [reflexivity |]. split; [reflexivity |].
  rewrite H. split; reflexivity.
Defined.

Lemma stick_release_centres_witness :
  let w := Sample.world0 PRO_CONTROLLER true in
  let w1 := fst (handle_line "stick:l:bogus:off" w) in
  colon_free "l" = true /\ colon_free "bogus" = true /\ colon_free "off" = true
  /\ "off" <> "true" /\ valid_side "l" = true
  /\ stdout w1 = [PrintStr "StickState was set to (2048, 2048)."]
  /\ get_h (l_stick_state (state (controller_state w1))) = 2048.
Proof.
  cbv zeta. set (w := Sample.world0 PRO_CONTROLLER true).
  assert (Hnt : "off" <> "true") by discriminate.
  destruct (stick_release_centres "l" "bogus" "off" w eq_refl eq_refl eq_refl Hnt eq_refl)
    as (H & _).
  split; [reflexivity |]. split; [reflexivity |]. split; [reflexivity |].
  split; [exact Hnt |]. split; [reflexivity |].
  change ("stick:" +:+ "l" +:+ ":" +:+ "bogus" +:+ ":" +:+ "off") with "stick:l:bogus:off" in H.
  rewrite H. split; reflexivity.
Defined.

Lemma connection_ends_only_by_witness :
  let w := Sample.world0 PRO_CONTROLLER false in
  let undecodable := String "255" (String "010" EmptyString) in
  snd (handle_line "btn:q:true" w) = Raise NotConnectedError
  /\ (exists cmd args w1,
        parse_line "btn:q:true" = Ok (cmd, args)
        /\ dispatch cmd args w = (w1, Ok tt)
        /\ snd (flush w1) = Raise NotConnectedError)
  /\ snd (handle_client [] w) = IncompleteReadError
  /\ decode_utf8 undecodable = None
  /\ handle_client [Chunk undecodable; Chunk "btn:a:true"] w = (w, UnicodeDecodeError)
  /\ handle_client [Failed LimitOverrun; Chunk "btn:a:true"] w = (w, LimitOverrunError).
Proof.
  cbv zeta. set (w := Sample.world0 PRO_CONTROLLER false).
  assert (Hr : snd (handle_line "btn:q:true" w) = Raise NotConnectedError)
    by (vm_compute; reflexivity).
  destruct (connection_ends_only_by [] "btn:q:true" w) as (Hline & _).
  split; [exact Hr |].
  split.
  { destruct (Hline NotConnectedError Hr)
      as [(n & m & H & _) | (cmd & args & w1 & Hp & Hd & _ & Hf)]; [discriminate H |].
    exists cmd, args, w1. auto. }
  split; [reflexivity |]. split; [reflexivity |]. split; reflexivity.
Defined.


Lemma add_command_never_overwrites_witness :
  Sample.registry0 !! "hold" = Some hold
  /\ fst (add_command "dance" Sample.greeting Sample.registry0) !! "hold" = Some hold
  /\ fst (add_command "hold" Sample.greeting Sample.registry0) !! "hold" = Some hold
  /\ (∅ : gmap string Handler) !! "dance" = None
  /\ snd ((add_command "dance" Sample.greeting;; add_command "dance" Sample.failing) ∅)
     = Raise (ValueError "Command dance already registered.")
  /\ fst ((add_command "dance" Sample.greeting;; add_command "dance" Sample.failing) ∅)
       !! "dance" = Some Sample.greeting.
Proof.
  assert (Hh : Sample.registry0 !! "hold" = Some hold) by (vm_compute; reflexivity).
  destruct (add_command_never_overwrites "dance" "hold" Sample.greeting Sample.failing hold
              Sample.registry0) as (Hkeep & _).
  destruct (add_command_never_overwrites "hold" "hold" Sample.greeting Sample.failing hold
              Sample.registry0) as (Hkeep' & _).
  destruct (add_command_never_overwrites "dance" "hold" Sample.greeting Sample.failing hold ∅)
    as (_ & Htwice & _).
  assert (Hfresh : (∅ : gmap string Handler) !! "dance" = None) by apply lookup_empty.
  split; [exact Hh |]. split; [exact (Hkeep Hh) |]. split; [exact (Hkeep' Hh) |].
  split; [exact Hfresh |]. rewrite (Htwice Hfresh).
  split; [reflexivity | apply lookup_insert_eq].
Defined.

Lemma register_commands_adds_three_witness :
  (∅ : gmap string Handler) !! "hold" = None
  /\ snd (_register_commands_with_controller_state ∅) = Ok tt
  /\ Sample.registry0 !! "release" = Some release
  /\ Sample.registry0 !! "nfc" = Some call_nfc
  /\ Sample.registry0 !! "stick" = None.
Proof.
  destruct (register_commands_adds_three ∅) as (Hiff & Hthree).
  assert (Hok : snd (_register_commands_with_controller_state ∅) = Ok tt).
  { apply Hiff. repeat split; apply lookup_empty. }
  destruct (Hthree Hok) as (_ & Hrel & Hnfc & Hother).
  split; [apply lookup_empty |]. split; [exact Hok |].
  split; [exact Hrel |]. split; [exact Hnfc |].
  unfold Sample.registry0. rewrite Hother by discriminate. apply lookup_empty.
Defined.

Lemma register_commands_stops_at_first_duplicate_witness :
  let taken : gmap string Handler := {["release" := Sample.greeting]} in
  taken !! "hold" = None
  /\ is_Some (taken !! "release")
  /\ snd (_register_commands_with_controller_state taken)
     = Raise (ValueError "Command release already registered.")
  /\ fst (_register_commands_with_controller_state taken) !! "hold" = Some hold
  /\ fst (_register_commands_with_controller_state taken) !! "nfc" = None
  /\ _register_commands_with_controller_state Sample.registry0
     = (Sample.registry0, Raise (ValueError "Command hold already registered.")).
Proof.
  cbv zeta. set (taken := ({["release" := Sample.greeting]} : gmap string Handler)).
  assert (Hh : taken !! "hold" = None) by (vm_compute; reflexivity).
  assert (Hr : is_Some (taken !! "release")) by (vm_compute; eauto).
  destruct (register_commands_stops_at_first_duplicate taken) as (Hstop & _).
  destruct (register_commands_stops_at_first_duplicate ∅) as (_ & Hagain).
  split; [exact Hh |]. split; [exact Hr |]. rewrite (Hstop Hh Hr).
  split; [reflexivity |]. split; [apply lookup_insert_eq |].
  split; [vm_compute; reflexivity |].
  apply Hagain. vm_compute; reflexivity.
Defined.

Lemma ensure_valid_button_first_unknown_witness :
  let cs := Sample.cs0 PRO_CONTROLLER in
  (forall button, button ∈ ["a"; "b"] -> button ∈ available_buttons cs)
  /\ ("q" ∉ available_buttons cs)
  /\ ensure_valid_button cs ["a"; "b"] = Ok tt
  /\ ensure_valid_button cs (["a"; "b"] ++ "q" :: ["z"])
     = Raise (ValueError "Button q does not exist on PRO_CONTROLLER").
Proof.
  cbv zeta. set (cs := Sample.cs0 PRO_CONTROLLER).
  assert (Hall : forall button, button ∈ ["a"; "b"] -> button ∈ available_buttons cs).
  { intros button Hin. apply elem_of_cons in Hin as [-> | Hin]; [compute_done |].
    apply elem_of_cons in Hin as [-> | Hin]; [compute_done |].
    apply elem_of_nil in Hin. contradiction. }
  assert (Hbad : "q" ∉ available_buttons cs) by compute_done.
  destruct (ensure_valid_button_first_unknown cs ["a"; "b"] ["a"; "b"] ["z"] "q")
    as (Hiff & Hfirst).
  split; [exact Hall |]. split; [exact Hbad |].
  split; [apply Hiff, Hall | exact (Hfirst Hall Hbad)].
Defined.

Lemma hold_release_change_buttons_after_connect_witness :
  let up := Sample.env0 PRO_CONTROLLER true in
  let down := Sample.env0 PRO_CONTROLLER false in
  ["a"; "x"] <> []
  /\ (forall button, button ∈ ["a"; "x"] -> button ∈ available_buttons (state up))
  /\ link up (link_ops up) = true
  /\ link down (link_ops down) = false
  /\ snd (hold ["a"; "x"] up) = Ok None
  /\ trace (fst (hold ["a"; "x"] up)) = [EvLog "Holding a x"; EvConnect; EvPress ["a"; "x"]]
  /\ "x" ∈ held (state (fst (hold ["a"; "x"] up)))
  /\ snd (hold ["a"; "x"] down) = Raise NotConnectedError
  /\ held (state (fst (hold ["a"; "x"] down))) = held (state down).
Proof.
  cbv zeta. set (up := Sample.env0 PRO_CONTROLLER true).
  set (down := Sample.env0 PRO_CONTROLLER false).
  assert (Hne : ["a"; "x"] <> ([] : list string)) by discriminate.
  assert (Hall : forall button, button ∈ ["a"; "x"] -> button ∈ available_buttons (state up)).
  { intros button Hin. apply elem_of_cons in Hin as [-> | Hin]; [compute_done |].
    apply elem_of_cons in Hin as [-> | Hin]; [compute_done |].
    apply elem_of_nil in Hin. contradiction. }
  destruct (hold_release_change_buttons_after_connect ["a"; "x"] up Hne Hall) as (Hup & _).
  destruct (hold_release_change_buttons_after_connect ["a"; "x"] down Hne Hall) as (_ & Hdown).
  destruct (Hup eq_refl) as (Hok & Hheld & Htrace & _).
  destruct (Hdown eq_refl) as (Hraise & Hsame & _).
  split; [exact Hne |]. split; [exact Hall |]. split; [reflexivity |]. split; [reflexivity |].
  split; [exact Hok |]. split; [exact Htrace |].
  split; [rewrite Hheld; set_solver |].
  split; [exact Hraise | exact Hsame].
Defined.

Lemma nfc_schedules_on_success_only_witness :
  let e := Sample.env0 PRO_CONTROLLER true in
  controller (state e) <> JOYCON_L
  /\ "/tmp/amiibo.bin" <> EmptyString
  /\ files e "/tmp/amiibo.bin" = Content Sample.amiibo
  /\ snd (nfc "/tmp/amiibo.bin" (Seconds 5) e) = Ok tt
  /\ nfc_content (state (fst (nfc "/tmp/amiibo.bin" (Seconds 5) e))) = Some Sample.amiibo
  /\ scheduled (fst (nfc "/tmp/amiibo.bin" (Seconds 5) e)) = [ClearNfc (Seconds 5)]
  /\ scheduled (fst (nfc "/tmp/nope" (Seconds 5) e)) = [].
Proof.
  cbv zeta. set (e := Sample.env0 PRO_CONTROLLER true).
  assert (Hc : controller (state e) <> JOYCON_L) by discriminate.
  assert (Hp : "/tmp/amiibo.bin" <> EmptyString) by discriminate.
  destruct (nfc_schedules_on_success_only "/tmp/amiibo.bin" (Seconds 5) e)
    as (Hiff & Hpay & Hsched).
  assert (Hok : snd (nfc "/tmp/amiibo.bin" (Seconds 5) e) = Ok tt).
  { apply Hiff. split; [exact Hc |]. split; [exact Hp |]. exists Sample.amiibo. reflexivity. }
  destruct (nfc_schedules_on_success_only "/tmp/nope" (Seconds 5) e) as (_ & _ & Hnone).
  split; [exact Hc |]. split; [exact Hp |]. split; [reflexivity |]. split; [exact Hok |].
  split; [exact (Hpay Sample.amiibo Hok eq_refl) |].
  split; [rewrite Hsched, Hok; reflexivity | rewrite Hnone; reflexivity].
Defined.

Lemma earlier_clear_removes_later_payload_witness :
  let e := mkEnv (Sample.cs0 PRO_CONTROLLER) (fun _ => true) 0
             (fun _ => Content Sample.amiibo) [] [] in
  let e2 := fst (nfc "/tmp/b.bin" (Seconds 9) (fst (nfc "/tmp/a.bin" (Seconds 1) e))) in
  controller (state e) <> JOYCON_L
  /\ "/tmp/a.bin" <> EmptyString /\ "/tmp/b.bin" <> EmptyString
  /\ nfc_content (state e2) = Some Sample.amiibo
  /\ scheduled e2 = [ClearNfc (Seconds 1); ClearNfc (Seconds 9)]
  /\ nfc_content (state (fst (run_task (ClearNfc (Seconds 1)) e2))) = None.
Proof.
  cbv zeta.
  set (e := mkEnv (Sample.cs0 PRO_CONTROLLER) (fun _ => true) 0
              (fun _ => Content Sample.amiibo) [] []).
  assert (Hc : controller (state e) <> JOYCON_L) by discriminate.
  assert (Ha : "/tmp/a.bin" <> EmptyString) by discriminate.
  assert (Hb : "/tmp/b.bin" <> EmptyString) by discriminate.
  destruct (earlier_clear_removes_later_payload "/tmp/a.bin" "/tmp/b.bin" Sample.amiibo
              Sample.amiibo 1 (Seconds 9) e Hc Ha Hb eq_refl eq_refl)
    as (_ & Hpay & Hsched & _ & Hgone).
  split; [exact Hc |]. split; [exact Ha |]. split; [exact Hb |].
  split; [exact Hpay |]. split; [exact Hsched | exact Hgone].
Defined.

Lemma nfc_line_uses_three_seconds_witness :
  let w := Sample.world0 PRO_CONTROLLER true in
  let left := Sample.world0 JOYCON_L true in
  commands w !! "nfc" = Some call_nfc
  /\ scheduled (controller_state (fst (handle_line "nfc:/tmp/amiibo.bin" w)))
     = [ClearNfc (Seconds 3)]
  /\ stdout (fst (handle_line "nfc:/tmp/amiibo.bin" w)) = []
  /\ stdout (fst (handle_line "nfc:/tmp/amiibo.bin" left))
     = [PrintExn (ValueError "NFC content cannot be set for JOYCON_L")].
Proof.
  cbv zeta. set (w := Sample.world0 PRO_CONTROLLER true).
  set (left := Sample.world0 JOYCON_L true).
  assert (Hreg : commands w !! "nfc" = Some call_nfc) by (vm_compute; reflexivity).
  assert (Hreg' : commands left !! "nfc" = Some call_nfc) by (vm_compute; reflexivity).
  pose proof (nfc_line_uses_three_seconds "/tmp/amiibo.bin" w Hreg) as H.
  pose proof (nfc_line_uses_three_seconds "/tmp/amiibo.bin" left Hreg') as H'.
  cbv zeta in H, H'.
  change ("nfc:" +:+ "/tmp/amiibo.bin") with "nfc:/tmp/amiibo.bin" in H, H'.
  split; [exact Hreg |]. rewrite H, H'.
  split; [vm_compute; reflexivity |]. split; vm_compute; reflexivity.
Defined.

Lemma cmd_stick_leaves_the_rest_witness :
  let e := Sample.env0 PRO_CONTROLLER true in
  valid_side "r" = true
  /\ valid_side "x" = false
  /\ other_stick "r" (fst (cmd_stick "r" "up" None e)) = Sample.stick0
  /\ fst (cmd_stick "x" "up" None e) = e.
Proof.
  cbv zeta. set (e := Sample.env0 PRO_CONTROLLER true).
  destruct (cmd_stick_leaves_the_rest "r" "up" None e)
    as (_ & _ & _ & _ & _ & _ & Hother & _).
  destruct (cmd_stick_leaves_the_rest "x" "up" None e)
    as (_ & _ & _ & _ & _ & _ & _ & Hsame).
  split; [reflexivity |]. split; [reflexivity |].
  split; [exact (Hother eq_refl) | exact (Hsame eq_refl)].
Defined.

Lemma start_server_stale_endpoint_witness :
  os_unlink SampleOs.sock (os SampleOs.blocked) = (os SampleOs.blocked, Raise (OSError SampleOs.sock))
  /\ os_path_exists SampleOs.sock (os SampleOs.blocked) = true
  /\ start_server SampleOs.blocked = (SampleOs.blocked, Raise (OSError SampleOs.sock))
  /\ os_unlink SampleOs.sock (os SampleOs.fresh) = (os SampleOs.fresh, Raise (OSError SampleOs.sock))
  /\ os_path_exists SampleOs.sock (os SampleOs.fresh) = false
  /\ os_unlink SampleOs.sock (os SampleOs.stale) = (os SampleOs.fresh, Ok tt)
  /\ start_server SampleOs.fresh = start_server SampleOs.stale
  /\ snd (start_server SampleOs.stale) = Ok tt.
Proof.
  assert (Hb : os_unlink SampleOs.sock (os SampleOs.blocked)
               = (os SampleOs.blocked, Raise (OSError SampleOs.sock))) by reflexivity.
  assert (Hf : os_unlink SampleOs.sock (os SampleOs.fresh)
               = (os SampleOs.fresh, Raise (OSError SampleOs.sock))) by reflexivity.
  assert (Hs : os_unlink SampleOs.sock (os SampleOs.stale) = (os SampleOs.fresh, Ok tt)).
  { simpl. unfold SampleOs.unlink. simpl. rewrite lookup_singleton_eq. simpl.
    rewrite delete_singleton_eq. reflexivity. }
  destruct (start_server_stale_endpoint SampleOs.blocked _ _ Hb) as (Hraise & _).
  destruct (start_server_stale_endpoint SampleOs.fresh _ _ Hf) as (_ & Hmissing).
  assert (Hexists : os_path_exists SampleOs.sock (os SampleOs.blocked) = true)
    by (vm_compute; reflexivity).
  assert (Habsent : os_path_exists SampleOs.sock (os SampleOs.fresh) = false)
    by (vm_compute; reflexivity).
  split; [exact Hb |]. split; [exact Hexists |]. split; [exact (Hraise Hexists) |].
  split; [exact Hf |]. split; [exact Habsent |]. split; [exact Hs |].
  split; [exact (Hmissing Habsent SampleOs.stale eq_refl eq_refl Hs) |].
  vm_compute; reflexivity.
Defined.

Lemma start_server_outcomes_witness :
  let started := fst (start_server SampleOs.stale) in
  let strict_fresh := @mkEndpoint SampleOs.strict SampleOs.sock None (SampleOs.mkDisk ∅ []) in
  let strict_full := @mkEndpoint SampleOs.strict "/full" None (SampleOs.mkDisk ∅ []) in
  start_server SampleOs.stale = (started, Ok tt)
  /\ server started = Some SampleOs.sock
  /\ SampleOs.nodes (os started) !! SampleOs.sock = Some (SampleOs.SocketFile 511)
  /\ snd (@start_server SampleOs.strict strict_full) = Raise (OSError "/full")
  /\ server (fst (@start_server SampleOs.strict strict_full)) = None
  /\ snd (@start_server SampleOs.strict strict_fresh) = Raise (OSError SampleOs.sock)
  /\ server (fst (@start_server SampleOs.strict strict_fresh)) = Some SampleOs.sock.
Proof.
  cbv zeta.
  assert (Hok : start_server SampleOs.stale = (fst (start_server SampleOs.stale), Ok tt))
    by (vm_compute; reflexivity).
  destruct (start_server_outcomes SampleOs.stale) as (Hstored & _).
  destruct (Hstored _ Hok) as (_ & Hloc).
  destruct (@start_server_outcomes SampleOs.strict
              (@mkEndpoint SampleOs.strict "/full" None (SampleOs.mkDisk ∅ []))) as (_ & Hbind & _).
  destruct (@start_server_outcomes SampleOs.strict
              (@mkEndpoint SampleOs.strict SampleOs.sock None (SampleOs.mkDisk ∅ []))) as (_ & _ & Hmod).
  split; [exact Hok |]. split; [vm_compute; reflexivity |].
  split; [vm_compute; reflexivity |].
  rewrite (Hbind (@mkEndpoint SampleOs.strict "/full" None (SampleOs.mkDisk ∅ [])) (SampleOs.mkDisk ∅ [])
             (OSError "/full") eq_refl eq_refl).
  split; [reflexivity |]. split; [reflexivity |].
  rewrite (Hmod (@mkEndpoint SampleOs.strict SampleOs.sock None (SampleOs.mkDisk ∅ []))
             (SampleOs.mkDisk (<[SampleOs.sock := SampleOs.SocketFile 493]> ∅) [])
             SampleOs.sock
             (SampleOs.mkDisk (<[SampleOs.sock := SampleOs.SocketFile 493]> ∅) [])
             (OSError SampleOs.sock) eq_refl eq_refl eq_refl).
  split; reflexivity.
Defined.

Lemma cleanup_closes_then_removes_witness :
  let started := fst (start_server SampleOs.stale) in
  server SampleOs.fresh = None
  /\ (exists what, cleanup SampleOs.fresh = (SampleOs.fresh, Raise (OtherError what)))
  /\ server started = Some SampleOs.sock
  /\ snd (cleanup started) = Ok tt
  /\ SampleOs.closed (os (fst (cleanup started))) = [SampleOs.sock]
  /\ SampleOs.nodes (os (fst (cleanup started))) !! SampleOs.sock = None
  /\ snd (cleanup (fst (cleanup started))) = Raise (OSError SampleOs.sock)
  /\ SampleOs.closed (os (fst (cleanup (fst (cleanup started)))))
     = [SampleOs.sock; SampleOs.sock].
Proof.
  cbv zeta. set (started := fst (start_server SampleOs.stale)).
  destruct (cleanup_closes_then_removes SampleOs.fresh) as (Hnone & _).
  destruct (cleanup_closes_then_removes started) as (_ & Hrun).
  assert (Hsrv : server started = Some SampleOs.sock) by (vm_compute; reflexivity).
  destruct (Hrun SampleOs.sock _ _ _ Hsrv eq_refl eq_refl) as (Hc & _).
  destruct (cleanup_closes_then_removes (fst (cleanup started))) as (_ & Hagain).
  assert (Hsrv' : server (fst (cleanup started)) = Some SampleOs.sock)
    by (rewrite Hc; exact Hsrv).
  destruct (Hagain SampleOs.sock _ _ _ Hsrv' eq_refl eq_refl) as (Hc' & _).
  split; [reflexivity |]. split; [exact (Hnone eq_refl) |]. split; [exact Hsrv |].
  split; [rewrite Hc; vm_compute; reflexivity |].
  split; [rewrite Hc; vm_compute; reflexivity |].
  split; [rewrite Hc; vm_compute; reflexivity |].
  split; [rewrite Hc'; vm_compute; reflexivity | rewrite Hc'; vm_compute; reflexivity].
Defined.
